(** * Talking Pet backend: shallow embedding of [main.py]

    Python values are modelled as [pyval]; Python dicts as insertion-ordered
    association lists ([dict]); mutable dicts live on an explicit heap
    ([gmap N dict]) so that aliasing between the model registry and the
    payloads built from it is visible. *)

From Stdlib Require Import ZArith String Ascii List Bool.
From stdpp Require Import base gmap sets list strings options.
Import ListNotations.

Local Open Scope string_scope.
Set Warnings "-register-all".

(** ** Python values and exceptions *)

Inductive pyval :=
  | VNone
  | VBool (b : bool)
  | VInt (z : Z)
  | VFloat (mant : Z) (exp10 : Z)   (** [mant * 10 ^ exp10] *)
  | VStr (s : string)
  | VList (xs : list pyval)
  | VRef (l : N).                   (** a reference to a heap-allocated dict *)

(** Exceptions raised by the code. [HTTPException] is FastAPI's; [HTTPError]
    stands for [httpx.HTTPError] (transport failures and [raise_for_status]);
    [TypeError] covers Python dict misuse that the registry never triggers. *)
Inductive exn :=
  | HTTPException (status_code : Z) (detail : string)
  | HTTPError
  | KeyError (key : string)
  | TypeError
  | CalledProcessError
  | FileNotFoundError.

(** A Python dict with string keys, in insertion order. *)
Abbreviation dict := (list (string * pyval)).

Fixpoint dict_get (k : string) (d : dict) : option pyval :=
  match d with
  | [] => None
  | (k', v) :: d' => if String.eqb k k' then Some v else dict_get k d'
  end.

Definition dict_has (k : string) (d : dict) : bool :=
  match dict_get k d with Some _ => true | None => false end.

(** [d[k] = v]: overwrite in place when present, append otherwise. *)
Fixpoint dict_set (k : string) (v : pyval) (d : dict) : dict :=
  match d with
  | [] => [(k, v)]
  | (k', v') :: d' =>
      if String.eqb k k' then (k', v) :: d' else (k', v') :: dict_set k v d'
  end.

(** Python truthiness of an optional string argument ([None] or [""] is falsy). *)
Definition truthy_str (o : option string) : bool :=
  match o with Some s => negb (String.eqb s "") | None => false end.

(** ** A state-and-exception monad

    [ST S A] threads a state [S] (the dict heap, a call trace, a file
    system) and stops at the first raised exception, keeping the state
    reached so far, as Python does. *)

Definition ST (S A : Type) : Type := S -> (exn + A) * S.

Definition ret {S A} (a : A) : ST S A := fun s => (inr a, s).
Definition raise {S A} (e : exn) : ST S A := fun s => (inl e, s).
Definition bind {S A B} (m : ST S A) (k : A -> ST S B) : ST S B :=
  fun s => match m s with
           | (inl e, s') => (inl e, s')
           | (inr a, s') => k a s'
           end.

(** [try: m  except Exception as e: handler(e)]. *)
Definition try_except {S A} (m : ST S A) (handler : exn -> ST S A) : ST S A :=
  fun s => match m s with
           | (inl e, s') => handler e s'
           | ok => ok
           end.

Notation "x <- m ;; k" := (bind m (fun x => k))
  (at level 100, m at next level, right associativity).
Notation "m ;;; k" := (bind m (fun _ => k))
  (at level 100, right associativity).

(** ** The dict heap *)

Abbreviation heap := (gmap N dict).
Abbreviation M := (ST heap).

(** Heap primitives, kept opaque to [cbn] so that symbolic runs stop at
    them and are driven by their equations. *)
Definition hlookup (h : heap) (l : N) : option dict := h !! l.
Definition hinsert (l : N) (d : dict) (h : heap) : heap := <[l := d]> h.
Definition hfresh (h : heap) : N := fresh (dom h).
Arguments hlookup : simpl never.
Arguments hinsert : simpl never.
Arguments hfresh : simpl never.

(** Dereference a dict reference. A dangling reference does not occur in
    Python; it is reported as a [TypeError]. *)
Definition read (l : N) : M dict :=
  fun h => match hlookup h l with
           | Some d => (inr d, h)
           | None => (inl TypeError, h)
           end.

Definition write (l : N) (d : dict) : M unit := fun h => (inr tt, hinsert l d h).

(** Allocation of a new dict object. *)
Definition alloc (d : dict) : M N :=
  fun h => let l := hfresh h in (inr l, hinsert l d h).

(** [obj[k] = v] for the dict at [l], key given as a Python value. *)
Definition set_item (l : N) (k : pyval) (v : pyval) : M unit :=
  match k with
  | VStr s => d <- read l ;; write l (dict_set s v d)
  | _ => raise TypeError
  end.

(** [obj.setdefault(k, v)] (result discarded). *)
Definition setdefault (l : N) (k : string) (v : pyval) : M unit :=
  d <- read l ;;
  if dict_has k d then ret tt else write l (dict_set k v d).

(** [obj[k]] for a dict value. *)
Definition getitem (d : dict) (k : string) : M pyval :=
  match dict_get k d with Some v => ret v | None => raise (KeyError k) end.

(** A dict-valued entry, dereferenced. *)
Definition deref (v : pyval) : M dict :=
  match v with VRef l => read l | _ => raise TypeError end.

(** ** The model registry [SUPPORTED_MODELS] *)

(** Heap locations of the registry objects as created at import time. *)
Definition SUPPORTED_MODELS_loc : N := 0.

Definition hailuo_params : dict := [("prompt_optimizer", VBool false)].
Definition hailuo_mapping : dict :=
  [("image_url", VStr "first_frame_image"); ("prompt", VStr "prompt");
   ("seconds", VStr "duration"); ("resolution", VStr "resolution")].
Definition hailuo_config : dict :=
  [("name", VStr "Hailuo-02"); ("default_params", VRef 2); ("param_mapping", VRef 3);
   ("supported_resolutions", VList [VStr "512p"; VStr "768p"; VStr "1080p"])].

Definition wan21_params : dict := [("format", VStr "wan2.1")].
Definition wan21_mapping : dict :=
  [("image_url", VStr "image"); ("prompt", VStr "prompt");
   ("seconds", VStr "duration"); ("resolution", VStr "resolution")].
Definition wan21_config : dict :=
  [("name", VStr "Wan v2.1"); ("default_params", VRef 5); ("param_mapping", VRef 6);
   ("supported_resolutions", VList [VStr "768p"; VStr "1080p"])].

Definition kling_params : dict := [("mode", VStr "standard"); ("aspect_ratio", VStr "1:1")].
Definition kling_mapping : dict :=
  [("image_url", VStr "start_image"); ("prompt", VStr "prompt");
   ("seconds", VStr "duration"); ("resolution", VStr "aspect_ratio")].
Definition kling_config : dict :=
  [("name", VStr "Kling v2.1"); ("default_params", VRef 8); ("param_mapping", VRef 9);
   ("supported_resolutions", VList [VStr "720p"; VStr "1080p"])].

Definition wan22_params : dict :=
  [("guidance_scale", VFloat 75 (-1)); ("num_inference_steps", VInt 25)].
Definition wan22_mapping : dict :=
  [("image_url", VStr "image"); ("prompt", VStr "prompt");
   ("seconds", VStr "duration"); ("resolution", VStr "resolution");
   ("audio_url", VStr "audio")].
Definition wan22_config : dict :=
  [("name", VStr "Wan v2.2"); ("default_params", VRef 11); ("param_mapping", VRef 12)].

Definition seedance_params : dict :=
  [("guidance_scale", VFloat 75 (-1)); ("num_inference_steps", VInt 20)].
Definition seedance_mapping : dict :=
  [("image_url", VStr "image"); ("prompt", VStr "prompt");
   ("seconds", VStr "duration"); ("resolution", VStr "resolution")].
Definition seedance_config : dict :=
  [("name", VStr "SeeDance-1 Lite"); ("default_params", VRef 14); ("param_mapping", VRef 15);
   ("supported_resolutions", VList [VStr "480p"; VStr "720p"; VStr "1080p"])].

Definition SUPPORTED_MODELS : dict :=
  [("minimax/hailuo-02", VRef 1); ("wan-video/wan-2.1", VRef 4);
   ("kwaivgi/kling-v2.1", VRef 7); ("wan-video/wan-2.2-s2v", VRef 10);
   ("bytedance/seedance-1-lite", VRef 13)].

(** The heap right after the module is imported. *)
Definition init_heap : heap :=
  list_to_map
    [(0%N, SUPPORTED_MODELS);
     (1%N, hailuo_config); (2%N, hailuo_params); (3%N, hailuo_mapping);
     (4%N, wan21_config); (5%N, wan21_params); (6%N, wan21_mapping);
     (7%N, kling_config); (8%N, kling_params); (9%N, kling_mapping);
     (10%N, wan22_config); (11%N, wan22_params); (12%N, wan22_mapping);
     (13%N, seedance_config); (14%N, seedance_params); (15%N, seedance_mapping)].

Definition DEFAULT_MODEL : string := "wan-video/wan-2.1".

(** ** [get_model_config] and [build_model_payload] *)

Definition get_model_config (model : string) : M N :=
  reg <- read SUPPORTED_MODELS_loc ;;
  match dict_get model reg with
  | None =>
      raise (HTTPException 400
               ("Unsupported model '" ++ model ++ "'. Supported models: "
                ++ String.concat ", " (map fst reg)))
  | Some (VRef c) => ret c
  | Some _ => raise TypeError
  end.

(** [payload["input"][param_mapping[field]] = v] when [field] is mapped. *)
Definition map_field (input : N) (param_mapping : dict) (field : string) (v : pyval) : M unit :=
  k <- getitem param_mapping field ;; set_item input k v.

(** The payload is returned as the outer dict [{"input": <copy>}]; the outer
    dict is a local of the function, so only the inner dict is put on the
    heap. [param_mapping] is read once: it is never the freshly copied dict,
    which is the only object the function writes to. *)
Definition build_model_payload (model image_url prompt : string) (seconds : Z)
    (resolution : string) (audio_url : option string) : M dict :=
  c <- get_model_config model ;;
  config <- read c ;;
  pm <- getitem config "param_mapping" ;;
  param_mapping <- deref pm ;;
  default_params <- match dict_get "default_params" config with
                    | Some v => deref v
                    | None => ret []
                    end ;;
  input <- alloc default_params ;;
  (if dict_has "image_url" param_mapping
   then map_field input param_mapping "image_url" (VStr image_url) else ret tt) ;;;
  (if dict_has "prompt" param_mapping
   then map_field input param_mapping "prompt" (VStr prompt) else ret tt) ;;;
  (if dict_has "seconds" param_mapping then
     if String.eqb model "kwaivgi/kling-v2.1" then
       if Z.leb seconds 5
       then map_field input param_mapping "seconds" (VInt 5)
       else map_field input param_mapping "seconds" (VInt 10)
     else map_field input param_mapping "seconds" (VInt seconds)
   else ret tt) ;;;
  (if dict_has "resolution" param_mapping then
     if String.eqb model "kwaivgi/kling-v2.1" then
       setdefault input "mode" (VStr "standard") ;;;
       if String.eqb resolution "1080p" then
         set_item input (VStr "mode") (VStr "pro") ;;;
         map_field input param_mapping "resolution" (VStr "16:9")
       else if String.eqb resolution "1024p" then
         set_item input (VStr "mode") (VStr "standard") ;;;
         map_field input param_mapping "resolution" (VStr "16:9")
       else
         set_item input (VStr "mode") (VStr "standard") ;;;
         map_field input param_mapping "resolution" (VStr "1:1")
     else if String.eqb model "bytedance/seedance-1-lite" then
       if String.eqb resolution "480p" then
         map_field input param_mapping "resolution" (VStr "480p")
       else if String.eqb resolution "720p" then
         map_field input param_mapping "resolution" (VStr "720p")
       else if String.eqb resolution "1080p" then
         map_field input param_mapping "resolution" (VStr "1080p")
       else if String.eqb resolution "1024p" then
         map_field input param_mapping "resolution" (VStr "1080p")
       else if String.eqb resolution "768p" then
         map_field input param_mapping "resolution" (VStr "720p")
       else
         map_field input param_mapping "resolution" (VStr "720p")
     else map_field input param_mapping "resolution" (VStr resolution)
   else ret tt) ;;;
  (if dict_has "audio_url" param_mapping && truthy_str audio_url then
     match audio_url with
     | Some a => map_field input param_mapping "audio_url" (VStr a)
     | None => ret tt
     end
   else ret tt) ;;;
  ret [("input", VRef input)].

(** The dict found at [payload["input"]] after a run, if the run succeeded. *)
Definition payload_input (run : (exn + dict) * heap) : option dict :=
  match run with
  | (inr payload, h) =>
      match dict_get "input" payload with
      | Some (VRef l) => hlookup h l
      | _ => None
      end
  | (inl _, _) => None
  end.

Definition payload_field (k : string) (run : (exn + dict) * heap) : option pyval :=
  payload_input run ≫= dict_get k.

(** The [param_mapping] dict of a registry entry, as created at import time. *)
Definition registry_mapping (model : string) : dict :=
  match dict_get model SUPPORTED_MODELS with
  | Some (VRef c) =>
      match init_heap !! c ≫= dict_get "param_mapping" with
      | Some (VRef pm) => default [] (init_heap !! pm)
      | _ => []
      end
  | _ => []
  end.

(** Whether the built [payload["input"]] has key [k]. *)
Definition payload_has (k : string) (run : (exn + dict) * heap) : bool :=
  match payload_input run with Some d => dict_has k d | None => false end.

(** The outcome of a run: the exception, or the contents of [payload["input"]]. *)
Definition payload_result (run : (exn + dict) * heap) : exn + option dict :=
  match run with
  | (inl e, _) => inl e
  | (inr _, _) => inr (payload_input run)
  end.

(** The [supported_resolutions] list of a registry entry, as created at import time. *)
Definition registry_resolutions (model : string) : list string :=
  match dict_get model SUPPORTED_MODELS with
  | Some (VRef c) =>
      match init_heap !! c ≫= dict_get "supported_resolutions" with
      | Some (VList xs) => omap (fun v => match v with VStr s => Some s | _ => None end) xs
      | _ => []
      end
  | _ => []
  end.

(** ** The poll loop of [replicate_video_from_prompt] *)

(** One answer of [GET /v1/predictions/{id}]: whether [raise_for_status]
    passes, and the decoded JSON body. *)
Record status_response := {
  resp_ok : bool;
  resp_data : dict
}.

(** [data.get(k)]. *)
Definition py_get (d : dict) (k : string) : pyval :=
  match dict_get k d with Some v => v | None => VNone end.

Definition is_terminal (status : pyval) : bool :=
  match status with
  | VStr s => String.eqb s "succeeded" || String.eqb s "failed" || String.eqb s "canceled"
  | _ => false
  end.

(** The loop ends by returning a value, by raising, or is still polling
    when the responses given to it run out. *)
Inductive poll_outcome :=
  | Returned (v : pyval)
  | Raised (e : exn)
  | StillPolling.

Section Poll.

(** [str()] of a JSON value that is neither a string nor [None]. *)
Variable py_repr : pyval -> string.

(** [str()] as used by the f-string of the failure message. *)
Definition py_str (v : pyval) : string :=
  match v with
  | VStr s => s
  | VNone => "None"
  | _ => py_repr v
  end.

(** The [while True] loop (lines 546-569). Each element of [responses] is
    the answer to one status request; [gets] counts the requests issued.
    [time.sleep(2)] between polls has no observable effect here. *)
Fixpoint poll_loop (model : string) (responses : list status_response) (gets : nat)
    : poll_outcome * nat :=
  match responses with
  | [] => (StillPolling, gets)
  | r :: rest =>
      if negb (resp_ok r) then (Raised HTTPError, S gets) else
      let data := resp_data r in
      let status := py_get data "status" in
      if is_terminal status then
        if negb (match status with VStr s => String.eqb s "succeeded" | _ => false end) then
          (Raised (HTTPException 400
                     (model ++ " " ++ py_str status ++ ": " ++ py_str (py_get data "error")
                      ++ " | logs: " ++ py_str (py_get data "logs"))), S gets)
        else
          match py_get data "output" with
          | VList (x :: xs) => (Returned (List.last (x :: xs) VNone), S gets)
          | VStr s => (Returned (VStr s), S gets)
          | _ => (Raised (HTTPException 500 "Replicate missing output URL"), S gets)
          end
      else poll_loop model rest (S gets)
  end.

End Poll.

(** A response that passes [raise_for_status] with a non-terminal status. *)
Definition nonterminal_ok (r : status_response) : bool :=
  resp_ok r && negb (is_terminal (py_get (resp_data r) "status")).

(** ** Python string helpers *)

(** [Some rest] when [s = old ++ rest]. *)
Fixpoint strip_prefix (old s : string) : option string :=
  match old, s with
  | EmptyString, _ => Some s
  | String c old', String c' s' => if Ascii.eqb c c' then strip_prefix old' s' else None
  | String _ _, EmptyString => None
  end.

Fixpoint replace_fuel (fuel : nat) (old new s : string) : string :=
  match fuel with
  | O => s
  | S f =>
      match strip_prefix old s with
      | Some rest => new ++ replace_fuel f old new rest
      | None =>
          match s with
          | EmptyString => EmptyString
          | String c rest => String c (replace_fuel f old new rest)
          end
      end
  end.

(** [s.replace(old, new)] for a non-empty [old]: left to right, non-overlapping. *)
Definition py_replace (old new s : string) : string :=
  replace_fuel (String.length s) old new s.

Fixpoint lstrip (cs : list ascii) (s : string) : string :=
  match s with
  | String c s' => if existsb (Ascii.eqb c) cs then lstrip cs s' else s
  | EmptyString => EmptyString
  end.

Definition str_rev (s : string) : string :=
  string_of_list_ascii (rev (list_ascii_of_string s)).

(** [s.strip(chars)]. *)
Definition py_strip (cs : list ascii) (s : string) : string :=
  str_rev (lstrip cs (str_rev (lstrip cs s))).

(** ** [uuid]: canonical formatting *)

Definition hex_char (n : Z) : ascii :=
  ascii_of_nat (Z.to_nat (if Z.ltb n 10 then 48 + n else 87 + n)%Z).

(** The [k] lowest hexadecimal digits of [z], most significant first. *)
Fixpoint hex_digits (k : nat) (z : Z) : string :=
  match k with
  | O => EmptyString
  | S k' => hex_digits k' (z / 16)%Z ++ String (hex_char (z mod 16)%Z) EmptyString
  end.

(** [str(uuid.UUID(int=z))]: ['%032x'] split 8-4-4-4-12 with hyphens. *)
Definition uuid_str (z : Z) : string :=
  let hx := hex_digits 32 z in
  substring 0 8 hx ++ "-" ++ substring 8 4 hx ++ "-" ++ substring 12 4 hx ++ "-"
  ++ substring 16 4 hx ++ "-" ++ substring 20 12 hx.

Definition hex_val (c : ascii) : option Z :=
  let n := Z.of_nat (nat_of_ascii c) in
  (if Z.leb 48 n && Z.leb n 57 then Some (n - 48)
   else if Z.leb 97 n && Z.leb n 102 then Some (n - 87)
   else if Z.leb 65 n && Z.leb n 70 then Some (n - 55)
   else None)%Z.

Fixpoint hex_value_acc (acc : Z) (s : string) : option Z :=
  match s with
  | EmptyString => Some acc
  | String c s' => match hex_val c with
                   | Some v => hex_value_acc (acc * 16 + v)%Z s'
                   | None => None
                   end
  end.

(** A model of [uuid.UUID(hex)] from the standard library: the [urn:] and
    [uuid:] markers, surrounding braces and hyphens are dropped and exactly
    32 hexadecimal digits must remain. (The further leniency of [int(hex, 16)]
    about blanks, signs and underscores is not modelled; the results below
    are stated for any parser returning 128-bit values.) *)
Definition uuid_UUID (s : string) : option Z :=
  let s1 := py_replace "uuid:" "" (py_replace "urn:" "" s) in
  let s2 := py_replace "-" "" (py_strip ["{"%char; "}"%char] s1) in
  if Nat.eqb (String.length s2) 32 then hex_value_acc 0 s2 else None.

(** ** Storage keys *)

Record UserContext := {
  uc_id : string;
  uc_email : option string;
  uc_name : option string
}.

(** [build_storage_key]; [uuid4] is the value drawn by [uuid.uuid4()]. *)
Definition build_storage_key (prefix category : string) (uuid4 : Z) (extension : string) : string :=
  let stripped := py_strip ["/"%char] prefix in
  let safe_prefix := if String.eqb stripped "" then "anonymous" else stripped in
  let safe_prefix := py_replace ".." "" safe_prefix in
  safe_prefix ++ "/" ++ category ++ "/" ++ uuid_str uuid4 ++ "." ++ extension.

Section Storage.

(** [uuid.UUID(s)]: [None] when it raises [ValueError]. *)
Variable uuid_parse : string -> option Z.

Definition resolve_user_storage_prefix (user_context : option UserContext) : exn + string :=
  match user_context with
  | None => inr "anonymous"
  | Some ctx =>
      match uuid_parse (uc_id ctx) with
      | None => inl (HTTPException 400 "user_context.id must be a valid UUID")
      | Some u => inr ("users/" ++ uuid_str u)
      end
  end.

(** A key as the request handlers build it: prefix first, then the key. *)
Definition user_storage_key (user_context : option UserContext) (category : string)
    (uuid4 : Z) (extension : string) : exn + string :=
  match resolve_user_storage_prefix user_context with
  | inl e => inl e
  | inr prefix => inr (build_storage_key prefix category uuid4 extension)
  end.

End Storage.

(** Whether every character of [s] satisfies [p]. *)
Fixpoint str_all (p : ascii -> bool) (s : string) : bool :=
  match s with
  | EmptyString => true
  | String c s' => p c && str_all p s'
  end.

(** Neither a dot nor a slash. *)
Definition plain_char (c : ascii) : bool := negb (Ascii.eqb "." c) && negb (Ascii.eqb "/" c).

(** Whether [s] contains the substring [".."]. *)
Fixpoint has_dotdot (s : string) : bool :=
  match s with
  | String c ((String c' _) as r) => (Ascii.eqb "." c && Ascii.eqb "." c') || has_dotdot r
  | _ => false
  end.

(** The categories and extensions passed by the request handlers. *)
Definition handler_key_kinds : list (string * string) := [("videos", "mp4"); ("audio", "mp3")].

(** ** Remote calls of the request handlers, as a call trace *)

(** The answer of an HTTP request: a response, or an [httpx] transport
    error raised by the client. *)
Inductive http_response :=
  | Resp (status_code : Z) (text : string)
  | TransportError.

(** The fields of a [pet_videos] record. *)
Record PetVideoRecord := {
  rec_user_id : option string;
  rec_video_url : string;
  rec_image_url : string;
  rec_script : option string;
  rec_prompt : string;
  rec_voice_id : option string;
  rec_resolution : string;
  rec_duration : Z
}.

(** Calls to collaborators, each with the exception it raised, if any. *)
Inductive event :=
  | EvGenerate (model : string) (outcome : option exn)
  | EvFetch (url : string) (outcome : option exn)
  | EvUpload (key : string) (outcome : option exn)
  | EvInsert (record : PetVideoRecord) (outcome : option exn)
  | EvDelete (key : string)
  | EvTTSPost (voice_id : string).

Abbreviation trace := (list event).
Abbreviation T := (ST trace).

Definition emit (ev : event) : T unit := fun t => (inr tt, app t [ev]).

(** Run [m] and append one event recording its outcome. *)
Definition logged {A} (mk : option exn -> event) (m : T A) : T A :=
  fun t => match m t with
           | (inl e, t') => (inl e, app t' [mk (Some e)])
           | (inr a, t') => (inr a, app t' [mk None])
           end.

Definition of_sum {S A} (r : exn + A) : ST S A :=
  match r with inl e => raise e | inr a => ret a end.

(** Environment configuration read at import time. *)
Record Config := {
  ELEVEN_API_KEY : string;
  SUPABASE_URL : string;
  SUPABASE_SERVICE_ROLE : string;
  SUPABASE_BUCKET : string;
  TTS_MAX_CHARS : Z
}.

(** What the outside world answers during one request. [w_generate] stands
    for the whole [generate_video_from_prompt] call (submission and poll
    loop), [w_fetch] for [fetch_binary]; [w_uuid4] is the value drawn by
    [uuid.uuid4()]. *)
Record World := {
  w_generate : string -> exn + string;
  w_fetch : string -> exn + string;
  w_upload : string -> http_response;
  w_insert : http_response;
  w_delete : http_response;
  w_tts : http_response;
  w_uuid4 : Z
}.

Definition supabase_env_missing (cfg : Config) : bool :=
  String.eqb (SUPABASE_URL cfg) "" || String.eqb (SUPABASE_SERVICE_ROLE cfg) "".

Definition supabase_upload (cfg : Config) (w : World) (file_bytes object_path content_type : string)
    : T string :=
  logged (EvUpload object_path)
    (if supabase_env_missing cfg then raise (HTTPException 500 "Supabase env not set") else
     match w_upload w object_path with
     | TransportError => raise HTTPError
     | Resp st txt =>
         if Z.leb 400 st then raise (HTTPException st ("Supabase upload failed: " ++ txt))
         else ret (SUPABASE_URL cfg ++ "/storage/v1/object/public/" ++ SUPABASE_BUCKET cfg
                   ++ "/" ++ object_path ++ "?download=1")
     end).

(** [supabase_delete]: only [httpx.HTTPError] is caught; the status code of
    the response is not inspected. *)
Definition supabase_delete (cfg : Config) (w : World) (object_path : string) : T unit :=
  emit (EvDelete object_path) ;;;
  if supabase_env_missing cfg || String.eqb object_path "" then ret tt else
  try_except
    (match w_delete w with TransportError => raise HTTPError | Resp _ _ => ret tt end)
    (fun e => match e with HTTPError => ret tt | _ => raise e end).

Definition insert_pet_video (cfg : Config) (w : World) (record : PetVideoRecord) : T unit :=
  logged (EvInsert record)
    (if supabase_env_missing cfg then raise (HTTPException 500 "Supabase env not set") else
     match w_insert w with
     | TransportError => raise HTTPError
     | Resp st txt =>
         if Z.leb 400 st then raise (HTTPException st ("Supabase metadata insert failed: " ++ txt))
         else ret tt
     end).

Definition generate_video_from_prompt (w : World) (model : string) : T string :=
  logged (EvGenerate model) (of_sum (w_generate w model)).

Definition fetch_binary (w : World) (url : string) : T string :=
  logged (EvFetch url) (of_sum (w_fetch w url)).

Record JobPromptOnly := {
  req_image_url : string;
  req_prompt : string;
  req_seconds : Z;
  req_resolution : string;
  req_model : option string;
  req_user_context : option UserContext
}.

(** [req.model or DEFAULT_MODEL]. *)
Definition model_or_default (m : option string) : string :=
  match m with
  | Some s => if String.eqb s "" then DEFAULT_MODEL else s
  | None => DEFAULT_MODEL
  end.

Section Handlers.

Variable uuid_parse : string -> option Z.

(** [create_job_with_prompt] (lines 651-694); returns [(video_url, final_url)]. *)
Definition create_job_with_prompt (cfg : Config) (w : World) (req : JobPromptOnly)
    : T (string * string) :=
  let model := model_or_default (req_model req) in
  prefix <- of_sum (resolve_user_storage_prefix uuid_parse (req_user_context req)) ;;
  let user_id := option_map uc_id (req_user_context req) in
  if String.eqb model "wan-video/wan-2.2-s2v" then
    raise (HTTPException 400
             ("wan-video/wan-2.2-s2v is a speech-to-video model that requires audio. "
              ++ "Use /jobs_prompt_tts endpoint instead."))
  else
  video_url <- generate_video_from_prompt w model ;;
  video_bytes <- fetch_binary w video_url ;;
  let final_key := build_storage_key prefix "videos" (w_uuid4 w) "mp4" in
  final_url <- supabase_upload cfg w video_bytes final_key "video/mp4" ;;
  try_except
    (insert_pet_video cfg w
       {| rec_user_id := user_id; rec_video_url := final_url;
          rec_image_url := req_image_url req; rec_script := None;
          rec_prompt := req_prompt req; rec_voice_id := None;
          rec_resolution := req_resolution req; rec_duration := req_seconds req |})
    (fun e => supabase_delete cfg w final_key ;;; raise e) ;;;
  ret (video_url, final_url).

End Handlers.

(** The keys passed to [supabase_delete] in a trace. *)
Fixpoint deleted_keys (t : trace) : list string :=
  match t with
  | [] => []
  | EvDelete k :: t' => k :: deleted_keys t'
  | _ :: t' => deleted_keys t'
  end.

(** ** [elevenlabs_tts_bytes] *)

(** Decimal rendering of an integer, as an f-string does. *)
Fixpoint dec_digits (fuel : nat) (n : Z) (acc : string) : string :=
  match fuel with
  | O => acc
  | S f =>
      let acc' := String (hex_char (n mod 10)%Z) acc in
      if Z.ltb n 10 then acc' else dec_digits f (n / 10)%Z acc'
  end.

Definition dec_of_Z (z : Z) : string :=
  if Z.ltb z 0 then "-" ++ dec_digits (S (Z.to_nat (Z.log2 (- z)))) (- z) ""
  else dec_digits (S (Z.to_nat (Z.log2 z))) z "".

(** The script is a Python [str]: a sequence of code points. *)
Definition elevenlabs_tts_bytes (cfg : Config) (w : World) (text : list N) (voice_id : string)
    : T string :=
  if String.eqb (ELEVEN_API_KEY cfg) "" then raise (HTTPException 500 "ELEVEN_API_KEY not set") else
  if Z.ltb (TTS_MAX_CHARS cfg) (Z.of_nat (length text)) then
    raise (HTTPException 400
             ("Text too long (max " ++ dec_of_Z (TTS_MAX_CHARS cfg) ++ " chars). Please shorten."))
  else
  emit (EvTTSPost voice_id) ;;;
  match w_tts w with
  | TransportError => raise HTTPError
  | Resp st audio =>
      if Z.leb 400 st then raise HTTPError
      else if Z.ltb 9500000 (Z.of_nat (String.length audio)) then
        raise (HTTPException 400 "Generated audio >9.5MB. Shorten script or reduce bitrate.")
      else ret audio
  end.

(** The number of requests sent to the speech provider. *)
Definition tts_posts (t : trace) : nat :=
  length (List.filter (fun ev => match ev with EvTTSPost _ => true | _ => false end) t).

(** ** [mux_video_audio] over a local file system *)

(** Paths to file contents; a directory is an entry with empty contents. *)
Abbreviation fs := (gmap string string).
Abbreviation F := (ST fs).

(** The outside world of one [mux_video_audio] call: the directory name
    chosen by [tempfile.mkdtemp], the two downloads ([None]: the request or
    [raise_for_status] fails) and the encoder run ([None]: non-zero exit,
    which [check=True] turns into [CalledProcessError]). *)
Record MuxWorld := {
  mw_tmpdir : string;
  mw_video : option string;
  mw_audio : option string;
  mw_ffmpeg_output : option string
}.

Definition path_join (dir name : string) : string := dir ++ "/" ++ name.

Definition mkdtemp (mw : MuxWorld) : F string :=
  fun m => (inr (mw_tmpdir mw), <[mw_tmpdir mw := ""]> m).

Definition write_file (p contents : string) : F unit := fun m => (inr tt, <[p := contents]> m).

Definition read_file (p : string) : F string :=
  fun m => match m !! p with Some c => (inr c, m) | None => (inl FileNotFoundError, m) end.

Definition http_get (r : option string) : F string :=
  match r with Some c => ret c | None => raise HTTPError end.

Definition under (dir p : string) : bool :=
  String.eqb p dir || String.prefix (dir ++ "/") p.

(** [shutil.rmtree(dir)]. *)
Definition rmtree (dir : string) : F unit :=
  fun m => (inr tt, filter (fun kv : string * string => under dir kv.1 = false) m).

Definition mux_video_audio (mw : MuxWorld) (video_url audio_url : string) : F string :=
  tmpdir <- mkdtemp mw ;;
  let vpath := path_join tmpdir "in.mp4" in
  let apath := path_join tmpdir "in.mp3" in
  let fpath := path_join tmpdir "out.mp4" in
  vr <- http_get (mw_video mw) ;;
  write_file vpath vr ;;;
  ar <- http_get (mw_audio mw) ;;
  write_file apath ar ;;;
  (match mw_ffmpeg_output mw with
   | Some out => write_file fpath out
   | None => raise CalledProcessError
   end) ;;;
  final_bytes <- read_file fpath ;;
  rmtree tmpdir ;;;
  ret final_bytes.

(** ** Frame conditions over the dict heap *)

(** [m] run on any heap extending [h0] keeps [h0] and, on success,
    returns a value satisfying [Q]. *)
Definition keeps {A} (h0 : heap) (m : M A) (Q : A -> Prop) : Prop :=
  forall h, h0 ⊆ h -> h0 ⊆ (m h).2 /\ forall a, (m h).1 = inr a -> Q a.

(** ** [require_auth] *)

Record AuthConfig := {
  API_AUTH_ENABLED : bool;
  API_AUTH_TOKEN : string
}.

(** [str.lower()] of one code point below 256: Starlette decodes header
    values as Latin-1, so these are all the characters a header holds. *)
Definition py_lower_char (c : ascii) : ascii :=
  let n := nat_of_ascii c in
  if (Nat.leb 65 n && Nat.leb n 90) || (Nat.leb 192 n && Nat.leb n 222 && negb (Nat.eqb n 215))
  then ascii_of_nat (n + 32) else c.

Fixpoint py_lower (s : string) : string :=
  match s with
  | EmptyString => EmptyString
  | String c s' => String (py_lower_char c) (py_lower s')
  end.

(** [s.partition(sep)] for a one-character separator. *)
Fixpoint py_partition (sep : ascii) (s : string) : string * string * string :=
  match s with
  | EmptyString => (EmptyString, EmptyString, EmptyString)
  | String c s' =>
      if Ascii.eqb c sep then (EmptyString, String sep EmptyString, s')
      else let '(head, sp, tail) := py_partition sep s' in (String c head, sp, tail)
  end.

Definition is_ascii_char (c : ascii) : bool := Nat.ltb (nat_of_ascii c) 128.

(** [secrets.compare_digest(a, b)] on two [str]: a [TypeError] unless both
    are ASCII. *)
Definition compare_digest (a b : string) : exn + bool :=
  if str_all is_ascii_char a && str_all is_ascii_char b then inr (String.eqb a b)
  else inl TypeError.

(** [require_auth] (lines 138-160); [authorization] is
    [request.headers.get("authorization")]. *)
Definition require_auth (cfg : AuthConfig) (authorization : option string) : exn + unit :=
  if negb (API_AUTH_ENABLED cfg) then inr tt else
  if String.eqb (API_AUTH_TOKEN cfg) "" then
    inl (HTTPException 500 "API authentication is enabled but API_AUTH_TOKEN is not configured.")
  else
  match authorization with
  | None => inl (HTTPException 401 "Missing Authorization header")
  | Some a =>
      if String.eqb a "" then inl (HTTPException 401 "Missing Authorization header") else
      let '(scheme, _, token) := py_partition " "%char a in
      if negb (String.eqb (py_lower scheme) "bearer") || String.eqb token "" then
        inl (HTTPException 401 "Authorization header must be 'Bearer <token>'")
      else
      match compare_digest token (API_AUTH_TOKEN cfg) with
      | inl e => inl e
      | inr true => inr tt
      | inr false => inl (HTTPException 403 "Invalid API token")
      end
  end.

(** ** [replicate_video_from_prompt] *)

(** Truthiness of a JSON value; [h] holds the objects it refers to. *)
Definition py_truthy (h : heap) (v : pyval) : bool :=
  match v with
  | VNone => false
  | VBool b => b
  | VInt z => negb (Z.eqb z 0)
  | VFloat m _ => negb (Z.eqb m 0)
  | VStr s => negb (String.eqb s "")
  | VList xs => negb (Nat.eqb (length xs) 0)
  | VRef l => match h !! l with Some d => negb (Nat.eqb (length d) 0) | None => true end
  end.

(** [replicate_video_from_prompt] (lines 509-569). [create] answers the
    creation request, [pred] is its decoded JSON body and [pred_objs] holds
    the objects nested in it; [polls] answer the status requests. The result
    is the outcome, the number of HTTP requests sent, and the heap. *)
Definition replicate_video_from_prompt (py_repr : pyval -> string) (REPLICATE_API_TOKEN : string)
    (model image_url prompt : string) (seconds : Z) (resolution : string)
    (audio_url : option string) (create : http_response) (pred : dict) (pred_objs : heap)
    (polls : list status_response) (h : heap) : poll_outcome * nat * heap :=
  if String.eqb REPLICATE_API_TOKEN "" then
    (Raised (HTTPException 500 "Replicate API token not set"), 0, h)
  else
  match build_model_payload model image_url prompt seconds resolution audio_url h with
  | (inl e, h') => (Raised e, 0, h')
  | (inr _, h') =>
      match create with
      | TransportError => (Raised HTTPError, 1, h')
      | Resp st txt =>
          if Z.leb 400 st then
            (Raised (HTTPException st ("Replicate " ++ model ++ " create failed: " ++ txt)), 1, h')
          else if negb (py_truthy pred_objs (py_get pred "id")) then
            (Raised (HTTPException 500 "Replicate missing prediction id"), 1, h')
          else
            let '(o, n) := poll_loop py_repr model polls 1 in (o, n, h')
      end
  end.

(** ** [head_info] *)

(** The characters [str.isspace()] accepts below code point 256. *)
Definition py_whitespace : list ascii :=
  map ascii_of_nat [9; 10; 11; 12; 13; 28; 29; 30; 31; 32; 133; 160].

Definition digit_value (c : ascii) : option Z :=
  let n := nat_of_ascii c in
  if Nat.leb 48 n && Nat.leb n 57 then Some (Z.of_nat n - 48)%Z else None.

(** Digits with single underscores between them; [after_digit] tells
    whether the previous character was a digit. *)
Fixpoint parse_digits (s : string) (acc : Z) (after_digit : bool) : option Z :=
  match s with
  | EmptyString => if after_digit then Some acc else None
  | String c s' =>
      match digit_value c with
      | Some d => parse_digits s' (acc * 10 + d)%Z true
      | None => if Ascii.eqb c "_" && after_digit then parse_digits s' acc false else None
      end
  end.

(** [int(s)] on a [str] below code point 256; [None] is [ValueError]. *)
Definition py_int (s : string) : option Z :=
  match py_strip py_whitespace s with
  | String c r =>
      if Ascii.eqb c "-" then option_map Z.opp (parse_digits r 0 false)
      else if Ascii.eqb c "+" then parse_digits r 0 false
      else parse_digits (String c r) 0 false
  | EmptyString => None
  end.

(** [bytes.lower()]: ASCII letters only. *)
Definition ascii_lower_char (c : ascii) : ascii :=
  let n := nat_of_ascii c in if Nat.leb 65 n && Nat.leb n 90 then ascii_of_nat (n + 32) else c.

Fixpoint ascii_lower (s : string) : string :=
  match s with
  | EmptyString => EmptyString
  | String c s' => String (ascii_lower_char c) (ascii_lower s')
  end.

Record HeadResponse := {
  hr_status : Z;
  hr_headers : list (string * string)
}.

(** [httpx.Headers.get(key, default)] for a lower-case [key]: every value
    stored under the key, joined with [", "]. *)
Definition headers_get (hs : list (string * string)) (key default : string) : string :=
  match List.filter (fun kv => String.eqb (ascii_lower kv.1) key) hs with
  | [] => default
  | found => String.concat ", " (map snd found)
  end.

(** The result of [head_info], or the exception it raises. *)
Inductive head_outcome :=
  | HeadOk (status : Z) (content_type : string) (size : Z)
  | HeadHTTPError
  | HeadValueError.

(** [head_info] (lines 498-506): the answer to the HEAD request, and the
    answer to the ranged GET sent when HEAD fails ([None]: a transport
    error). Also the number of requests sent. *)
Definition head_info (head get : option HeadResponse) : head_outcome * nat :=
  match head with
  | None => (HeadHTTPError, 1)
  | Some hd =>
      let '(r, n) := if Z.leb 400 (hr_status hd) then (get, 2%nat) else (Some hd, 1%nat) in
      match r with
      | None => (HeadHTTPError, n)
      | Some r =>
          match py_int (headers_get (hr_headers r) "content-length" "0") with
          | None => (HeadValueError, n)
          | Some size => (HeadOk (hr_status r) (headers_get (hr_headers r) "content-type" "") size, n)
          end
      end
  end.

(** ** [create_job_with_prompt_and_tts] *)

Record JobPromptTTS := {
  treq_image_url : string;
  treq_prompt : string;
  treq_text : string;
  treq_voice_id : string;
  treq_seconds : Z;
  treq_resolution : string;
  treq_model : option string;
  treq_user_context : option UserContext
}.

(** The outside world of one request: the calls shared with the prompt-only
    handler ([w_generate] answers the generation call whatever its audio
    argument, [w_uuid4] is the draw for the video key), the draw for the
    audio key, and [mux_video_audio]. *)
Record TTSJobWorld := {
  tj_world : World;
  tj_audio_uuid4 : Z;
  tj_mux : string -> string -> exn + string
}.

(** The code points of a script whose characters are all below 256. *)
Definition code_points (s : string) : list N :=
  map (fun c => N.of_nat (nat_of_ascii c)) (list_ascii_of_string s).

(** The [except] clause of the handler, given the value [final_key] has
    when the exception is raised. *)
Definition tts_cleanup {A} (cfg : Config) (w : World) (audio_key : string)
    (final_key : option string) (e : exn) : T A :=
  (match final_key with
   | Some k => if String.eqb k "" then ret tt else supabase_delete cfg w k
   | None => ret tt
   end) ;;;
  supabase_delete cfg w audio_key ;;;
  raise e.

Section TTSHandler.

Variable uuid_parse : string -> option Z.

(** [create_job_with_prompt_and_tts] (lines 697-771); returns
    [(audio_url, video_url, final_url)]. The [try] block is split where
    [final_key] is assigned, each part with the [except] clause for the
    value [final_key] has there. *)
Definition create_job_with_prompt_and_tts (cfg : Config) (tw : TTSJobWorld) (req : JobPromptTTS)
    : T (string * string * string) :=
  let w := tj_world tw in
  let model := model_or_default (treq_model req) in
  prefix <- of_sum (resolve_user_storage_prefix uuid_parse (treq_user_context req)) ;;
  let user_id := option_map uc_id (treq_user_context req) in
  mp3_bytes <- elevenlabs_tts_bytes cfg w (code_points (treq_text req)) (treq_voice_id req) ;;
  let audio_key := build_storage_key prefix "audio" (tj_audio_uuid4 tw) "mp3" in
  audio_public_url <- supabase_upload cfg w mp3_bytes audio_key "audio/mpeg" ;;
  let record final_url :=
    {| rec_user_id := user_id; rec_video_url := final_url;
       rec_image_url := treq_image_url req; rec_script := Some (treq_text req);
       rec_prompt := treq_prompt req; rec_voice_id := Some (treq_voice_id req);
       rec_resolution := treq_resolution req; rec_duration := treq_seconds req |} in
  if String.eqb model "wan-video/wan-2.2-s2v" then
    video_url <- try_except (generate_video_from_prompt w model)
                   (tts_cleanup cfg w audio_key None) ;;
    let final_key := build_storage_key prefix "videos" (w_uuid4 w) "mp4" in
    try_except
      (final_bytes <- fetch_binary w video_url ;;
       final_url <- supabase_upload cfg w final_bytes final_key "video/mp4" ;;
       insert_pet_video cfg w (record final_url) ;;;
       ret (audio_public_url, video_url, final_url))
      (tts_cleanup cfg w audio_key (Some final_key))
  else
    video_url <- try_except (generate_video_from_prompt w model)
                   (tts_cleanup cfg w audio_key None) ;;
    final_bytes <- try_except (of_sum (tj_mux tw video_url audio_public_url))
                     (tts_cleanup cfg w audio_key None) ;;
    let final_key := build_storage_key prefix "videos" (w_uuid4 w) "mp4" in
    try_except
      (final_url <- supabase_upload cfg w final_bytes final_key "video/mp4" ;;
       insert_pet_video cfg w (record final_url) ;;;
       ret (audio_public_url, video_url, final_url))
      (tts_cleanup cfg w audio_key (Some final_key)).

End TTSHandler.

(** ** Helpers of the proofs *)

(** [s] with every ['-'] removed. *)
Fixpoint remove_dashes (s : string) : string :=
  match s with
  | EmptyString => EmptyString
  | String c s' => if Ascii.eqb "-" c then remove_dashes s' else String c (remove_dashes s')
  end.

(** The characters of [str(uuid.UUID(...))]. *)
Definition uuid_char (c : ascii) : bool :=
  existsb (Ascii.eqb c) (list_ascii_of_string "0123456789abcdef-").

(** The number of [EvUpload] events of a trace that succeeded. *)
Definition uploads_ok (t : trace) : list string :=
  List.flat_map (fun ev => match ev with EvUpload k None => [k] | _ => [] end) t.

(** Whether [s] contains no space. *)
Definition no_space (s : string) : bool := str_all (fun c => negb (Ascii.eqb c " ")) s.

(** Whether [s] contains no dot. *)
Definition nodot (s : string) : bool := str_all (fun c => negb (Ascii.eqb "." c)) s.

Definition starts_dot (s : string) : bool :=
  match s with String c _ => Ascii.eqb "." c | EmptyString => false end.

Definition is_digit (c : ascii) : bool := match digit_value c with Some _ => true | None => false end.

Definition no_comma (c : ascii) : bool := negb (Ascii.eqb c ",").

(** The headers a [content-length] lookup of [r] sees. *)
Definition content_length_headers (r : HeadResponse) : list (string * string) :=
  List.filter (fun kv => String.eqb (ascii_lower kv.1) "content-length") (hr_headers r).

(** [r] is the response [head_info] reads its headers from: the HEAD
    answer below 400, the answer of the ranged GET otherwise. *)
Definition head_info_source (hd : HeadResponse) (get : option HeadResponse) (r : HeadResponse) : Prop :=
  ((hr_status hd < 400)%Z /\ r = hd) \/ ((400 <= hr_status hd)%Z /\ get = Some r).

(** ** Sample inputs *)

(** A configuration with the given ElevenLabs key. *)
Definition cfg_example (key : string) : Config := {|
  ELEVEN_API_KEY := key; SUPABASE_URL := "https://x.supabase.co";
  SUPABASE_SERVICE_ROLE := "role"; SUPABASE_BUCKET := "pets"; TTS_MAX_CHARS := 600 |}.

(** A world in which every call succeeds except the metadata insert. *)
Definition world_example : World := {|
  w_generate := fun _ => inr "https://replicate.delivery/v.mp4";
  w_fetch := fun _ => inr "VIDEO";
  w_upload := fun _ => Resp 200 "{}";
  w_insert := Resp 400 "bad record";
  w_delete := TransportError;
  w_tts := Resp 200 "AUDIO";
  w_uuid4 := 7 |}.

(** A prompt-only request without a user context. *)
Definition req_example : JobPromptOnly := {|
  req_image_url := "https://e.com/pet.jpg"; req_prompt := "a dog"; req_seconds := 6;
  req_resolution := "720p"; req_model := None; req_user_context := None |}.

(** A status response that passed [raise_for_status]. *)
Definition poll_response (fields : dict) : status_response := {| resp_ok := true; resp_data := fields |}.

(** A stand-in for [str()] of JSON values. *)
Definition json_repr (v : pyval) : string := "<json>".

Definition zero_uuid_user : UserContext := {|
  uc_id := "00000000-0000-0000-0000-000000000000"; uc_email := None; uc_name := None |}.

Definition traversal_user : UserContext := {|
  uc_id := "../../etc"; uc_email := None; uc_name := None |}.

(** [mux_video_audio] where both downloads succeed and the encoder exits non-zero. *)
Definition mw_encoder_fails : MuxWorld := {|
  mw_tmpdir := "/tmp/tmpab12"; mw_video := Some "VIDEO"; mw_audio := Some "AUDIO";
  mw_ffmpeg_output := None |}.

(** Authentication enabled with the given token. *)
Definition auth_example (token : string) : AuthConfig := {|
  API_AUTH_ENABLED := true; API_AUTH_TOKEN := token |}.

(** A world in which every call succeeds. *)
Definition world_ok : World := {|
  w_generate := fun _ => inr "https://replicate.delivery/v.mp4";
  w_fetch := fun _ => inr "VIDEO";
  w_upload := fun _ => Resp 200 "{}";
  w_insert := Resp 201 "";
  w_delete := Resp 200 "[]";
  w_tts := Resp 200 "AUDIO";
  w_uuid4 := 7 |}.

(** A world in which the download of the generated video fails. *)
Definition world_fetch_fails : World := {|
  w_generate := fun _ => inr "https://replicate.delivery/v.mp4";
  w_fetch := fun _ => inl HTTPError;
  w_upload := fun _ => Resp 200 "{}";
  w_insert := Resp 201 "";
  w_delete := Resp 200 "[]";
  w_tts := Resp 200 "AUDIO";
  w_uuid4 := 7 |}.

(** A world in which the storage service refuses every upload. *)
Definition world_upload_fails : World := {|
  w_generate := fun _ => inr "https://replicate.delivery/v.mp4";
  w_fetch := fun _ => inr "VIDEO";
  w_upload := fun _ => Resp 503 "unavailable";
  w_insert := Resp 201 "";
  w_delete := Resp 200 "[]";
  w_tts := Resp 200 "AUDIO";
  w_uuid4 := 7 |}.

Definition tts_world (w : World) : TTSJobWorld := {|
  tj_world := w; tj_audio_uuid4 := 9; tj_mux := fun _ _ => inr "MUXED" |}.

(** A speech request without a user context. *)
Definition tts_req_example (model : option string) (ctx : option UserContext) : JobPromptTTS := {|
  treq_image_url := "https://e.com/pet.jpg"; treq_prompt := "a dog"; treq_text := "Hello!";
  treq_voice_id := "voice"; treq_seconds := 6; treq_resolution := "720p";
  treq_model := model; treq_user_context := ctx |}.

Definition head_ok : HeadResponse := {|
  hr_status := 200;
  hr_headers := [("Content-Type", "video/mp4"); ("Content-Length", "1048576")] |}.

Definition head_forbidden : HeadResponse := {| hr_status := 403; hr_headers := [] |}.

Definition head_no_length : HeadResponse := {|
  hr_status := 206; hr_headers := [("content-type", "video/mp4")] |}.

Definition head_two_lengths : HeadResponse := {|
  hr_status := 200; hr_headers := [("Content-Length", "10"); ("content-length", "10")] |}.

(** Two status answers that are still in progress. *)
Definition polls_pending : list status_response :=
  [poll_response [("status", VStr "starting")]; poll_response [("status", VStr "processing")]].

(** [mux_video_audio] where every step succeeds. *)
Definition mw_ok : MuxWorld := {|
  mw_tmpdir := "/tmp/tmpab12"; mw_video := Some "VIDEO"; mw_audio := Some "AUDIO";
  mw_ffmpeg_output := Some "MUXED" |}.

(** [mux_video_audio] where the audio download fails. *)
Definition mw_audio_fails : MuxWorld := {|
  mw_tmpdir := "/tmp/tmpab12"; mw_video := Some "VIDEO"; mw_audio := None;
  mw_ffmpeg_output := Some "MUXED" |}.

(** * Proofs *)

(** ** Symbolic evaluation over the dict heap *)

Arguments bind : simpl never.
Arguments ret : simpl never.
Arguments raise : simpl never.
Arguments read : simpl never.
Arguments write : simpl never.
Arguments alloc : simpl never.

Lemma reg_lookup (h : heap) (l : N) (d : dict) :
  init_heap ⊆ h -> init_heap !! l = Some d -> hlookup h l = Some d.
Proof. intros Hh Hl. unfold hlookup. eapply lookup_weaken; eauto. Qed.

Lemma hlookup_hinsert_eq (h : heap) l d : hlookup (hinsert l d h) l = Some d.
Proof. apply lookup_insert_eq. Qed.

Lemma hinsert_hinsert (h : heap) l d d' : hinsert l d' (hinsert l d h) = hinsert l d' h.
Proof. apply insert_insert_eq. Qed.

Section steps.
Context {S A B C : Type}.

Lemma bind_assoc_at (m : ST S A) (k1 : A -> ST S B) (k2 : B -> ST S C) s :
  bind (bind m k1) k2 s = bind m (fun x => bind (k1 x) k2) s.
Proof. unfold bind. destruct (m s) as [[] ?]; reflexivity. Qed.

Lemma bind_ret_at (a : A) (k : A -> ST S B) s : bind (ret a) k s = k a s.
Proof. reflexivity. Qed.

Lemma bind_raise_at e (k : A -> ST S B) s : bind (raise e) k s = (inl e, s).
Proof. reflexivity. Qed.

Lemma ret_at (a : A) s : (ret a : ST S A) s = (inr a, s).
Proof. reflexivity. Qed.

Lemma raise_at e s : (raise e : ST S A) s = (inl e, s).
Proof. reflexivity. Qed.

End steps.

Lemma bind_read_at {B} l (k : dict -> M B) h :
  bind (read l) k h = match hlookup h l with Some d => k d h | None => (inl TypeError, h) end.
Proof. unfold bind, read. destruct (hlookup h l); reflexivity. Qed.

Lemma bind_write_at {B} l d (k : unit -> M B) h : bind (write l d) k h = k tt (hinsert l d h).
Proof. reflexivity. Qed.

Lemma bind_alloc_at {B} d (k : N -> M B) h :
  bind (alloc d) k h = k (hfresh h) (hinsert (hfresh h) d h).
Proof. reflexivity. Qed.

(** Rewrite a read of a registry location of a heap that extends [init_heap]. *)
Ltac reg h Hh :=
  match goal with
  | |- context [hlookup h ?l] =>
      let d := eval vm_compute in (init_heap !! l) in
      match d with Some ?x => rewrite (reg_lookup h l x Hh eq_refl) end
  end.

Ltac sym_step h Hh :=
  match goal with
  | |- context [bind (bind ?m ?k1) ?k2 ?s] => rewrite (bind_assoc_at m k1 k2 s)
  | |- context [bind (ret ?a) ?k ?s] => rewrite (bind_ret_at a k s)
  | |- context [bind (raise ?e) ?k ?s] => rewrite (bind_raise_at e k s)
  | |- context [bind (write ?l ?d) ?k ?s] => rewrite (bind_write_at l d k s)
  | |- context [bind (alloc ?d) ?k ?s] => rewrite (bind_alloc_at d k s)
  | |- context [bind (read ?l) ?k ?s] => rewrite (bind_read_at l k s)
  | |- context [ret ?a ?s] => rewrite (ret_at a s)
  | |- context [raise ?e ?s] => rewrite (raise_at e s)
  | |- context [hlookup (hinsert ?l ?d ?h') ?l] => rewrite (hlookup_hinsert_eq h' l d)
  | |- context [hinsert ?l ?d' (hinsert ?l ?d ?h')] => rewrite (hinsert_hinsert h' l d d')
  | |- context [hlookup h ?l] => reg h Hh
  | |- context [bind (?f _) _ _] =>
      progress (unfold get_model_config, map_field, set_item, setdefault, getitem, deref,
                       SUPPORTED_MODELS_loc)
  | |- context [bind (?f _ _) _ _] =>
      progress (unfold get_model_config, map_field, set_item, setdefault, getitem, deref,
                       SUPPORTED_MODELS_loc)
  | |- context [bind (?f _ _ _) _ _] =>
      progress (unfold get_model_config, map_field, set_item, setdefault, getitem, deref,
                       SUPPORTED_MODELS_loc)
  | |- _ => progress cbn
  | |- context [bind (match ?x with _ => _ end) _ _] => destruct x eqn:?
  end.

(** Run [build_model_payload] symbolically on a heap [h] with [init_heap ⊆ h]. *)
Ltac sym h Hh := unfold build_model_payload; repeat sym_step h Hh.

(** C7: for model [kwaivgi/kling-v2.1] and every integer [seconds], the
    [duration] field of the payload is 5 when [seconds <= 5] and 10 otherwise. *)
Theorem kling_duration_snap (h : heap) (image_url prompt resolution : string) (seconds : Z)
    (audio_url : option string) :
  init_heap ⊆ h ->
  ((seconds <= 5)%Z ->
   payload_field "duration"
     (build_model_payload "kwaivgi/kling-v2.1" image_url prompt seconds resolution audio_url h)
   = Some (VInt 5)) /\
  ((5 < seconds)%Z ->
   payload_field "duration"
     (build_model_payload "kwaivgi/kling-v2.1" image_url prompt seconds resolution audio_url h)
   = Some (VInt 10)).
Proof.
  intros Hh. unfold payload_field. sym h Hh.
  all: split; intros; first [reflexivity | lia].
Qed.

(** C6: for every supported model, every mapped input that is present
    (the audio URL counts as present when truthy) appears in the payload under
    its provider-specific key; when no audio URL is given, neither the mapped
    audio key nor an [audio] key appears. *)
Theorem payload_maps_present_fields (model : string) (h : heap)
    (image_url prompt resolution : string) (seconds : Z) (audio_url : option string) :
  In model (map fst SUPPORTED_MODELS) -> init_heap ⊆ h ->
  (forall field k, dict_get field (registry_mapping model) = Some (VStr k) ->
     (field = "audio_url" -> truthy_str audio_url = true) ->
     payload_has k (build_model_payload model image_url prompt seconds resolution audio_url h)
     = true) /\
  (truthy_str audio_url = false ->
   payload_has "audio" (build_model_payload model image_url prompt seconds resolution audio_url h)
   = false /\
   forall k, dict_get "audio_url" (registry_mapping model) = Some (VStr k) ->
     payload_has k (build_model_payload model image_url prompt seconds resolution audio_url h)
     = false).
Proof.
  intros Hin Hh. cbn in Hin.
  destruct Hin as [<-|[<-|[<-|[<-|[<-|[]]]]]];
    [replace (registry_mapping "minimax/hailuo-02") with hailuo_mapping by reflexivity
    |replace (registry_mapping "wan-video/wan-2.1") with wan21_mapping by reflexivity
    |replace (registry_mapping "kwaivgi/kling-v2.1") with kling_mapping by reflexivity
    |replace (registry_mapping "wan-video/wan-2.2-s2v") with wan22_mapping by reflexivity
    |replace (registry_mapping "bytedance/seedance-1-lite") with seedance_mapping by reflexivity];
  unfold payload_has; sym h Hh.
  all: split;
    [ intros field k Hf Ha;
      repeat (case_match; simplify_eq/=); try reflexivity
    | intros Hau; first [congruence | split; [reflexivity | intros k Hk; simplify_eq/=; try reflexivity]] ].
  all: match goal with
       | E : String.eqb _ "audio_url" = true, Ha : _ = "audio_url" -> _ |- _ =>
           apply String.eqb_eq in E; specialize (Ha E); discriminate
       end.
Qed.

Lemma kling_duration_snap_witness :
  init_heap ⊆ init_heap /\
  payload_field "duration"
    (build_model_payload "kwaivgi/kling-v2.1" "https://e.com/i.jpg" "hi" 3 "720p" None init_heap)
  = Some (VInt 5) /\
  payload_field "duration"
    (build_model_payload "kwaivgi/kling-v2.1" "https://e.com/i.jpg" "hi" 8 "720p" None init_heap)
  = Some (VInt 10).
Proof.
  assert (Hh : init_heap ⊆ init_heap) by reflexivity.
  split; [exact Hh|]. split.
  - apply (proj1 (kling_duration_snap init_heap "https://e.com/i.jpg" "hi" "720p" 3 None Hh)). lia.
  - apply (proj2 (kling_duration_snap init_heap "https://e.com/i.jpg" "hi" "720p" 8 None Hh)). lia.
Defined.

Lemma payload_maps_present_fields_witness :
  In "wan-video/wan-2.2-s2v" (map fst SUPPORTED_MODELS) /\ init_heap ⊆ init_heap /\
  payload_has "audio"
    (build_model_payload "wan-video/wan-2.2-s2v" "https://e.com/i.jpg" "hi" 6 "720p"
       (Some "https://e.com/a.mp3") init_heap) = true /\
  payload_has "audio"
    (build_model_payload "wan-video/wan-2.2-s2v" "https://e.com/i.jpg" "hi" 6 "720p" None init_heap)
  = false.
Proof.
  assert (Hin : In "wan-video/wan-2.2-s2v" (map fst SUPPORTED_MODELS))
    by (cbn; right; right; right; left; reflexivity).
  assert (Hh : init_heap ⊆ init_heap) by reflexivity.
  split; [exact Hin|]. split; [exact Hh|]. split.
  - apply (proj1 (payload_maps_present_fields _ init_heap "https://e.com/i.jpg" "hi" "720p" 6
                    (Some "https://e.com/a.mp3") Hin Hh) "audio_url").
    + reflexivity.
    + intros _. reflexivity.
  - exact (proj1 (proj2 (payload_maps_present_fields _ init_heap "https://e.com/i.jpg" "hi" "720p" 6
                           None Hin Hh) eq_refl)).
Defined.

(** ** Frame: [build_model_payload] leaves every existing object unchanged *)

Section keeps_rules.
Context {A B : Type} (h0 : heap).

Lemma keeps_ret (a : A) : keeps h0 (ret a) (fun _ => True).
Proof. intros h Hh. split; [exact Hh | done]. Qed.

Lemma keeps_raise e (Q : A -> Prop) : keeps h0 (raise e) Q.
Proof. intros h Hh. split; [exact Hh | done]. Qed.

Lemma keeps_read l : keeps h0 (read l) (fun _ => True).
Proof. intros h Hh. unfold read. destruct (hlookup h l); split; done. Qed.

Lemma keeps_write l d : l ∉ dom h0 -> keeps h0 (write l d) (fun _ => True).
Proof.
  intros Hl h Hh. split; [|done]. cbn. unfold hinsert.
  apply insert_subseteq_r; [|exact Hh]. by apply not_elem_of_dom.
Qed.

Lemma keeps_alloc d : keeps h0 (alloc d) (fun l => l ∉ dom h0).
Proof.
  intros h Hh. cbn. unfold hinsert, hfresh. split.
  - apply insert_subseteq_r; [|exact Hh].
    apply not_elem_of_dom.
    intros Hin. apply (is_fresh (dom h)). by apply (subseteq_dom h0 h).
  - intros a [= <-] Hin. apply (is_fresh (dom h)). by apply (subseteq_dom h0 h).
Qed.

Lemma keeps_bind (m : M A) (k : A -> M B) (P : A -> Prop) (Q : B -> Prop) :
  keeps h0 m P -> (forall a, P a -> keeps h0 (k a) Q) -> keeps h0 (bind m k) Q.
Proof.
  intros Hm Hk h Hh. unfold bind.
  destruct (Hm h Hh) as [H1 H2]. destruct (m h) as [[e|a] h'] eqn:E; cbn in *.
  - split; [exact H1 | done].
  - exact (Hk a (H2 a eq_refl) h' H1).
Qed.

End keeps_rules.

Ltac keeps_step :=
  match goal with
  | |- forall _, _ => intros
  | |- keeps _ (bind _ _) _ => eapply keeps_bind
  | |- keeps _ (ret _) _ => apply keeps_ret
  | |- keeps _ (raise _) _ => apply keeps_raise
  | |- keeps _ (read _) _ => apply keeps_read
  | |- keeps _ (write _ _) _ => apply keeps_write; assumption
  | |- keeps _ (alloc _) _ => apply keeps_alloc
  | |- keeps _ (match ?x with _ => _ end) _ => destruct x
  end.

Lemma build_model_payload_keeps (h0 : heap) model image_url prompt seconds resolution audio_url :
  keeps h0 (build_model_payload model image_url prompt seconds resolution audio_url)
    (fun _ => True).
Proof.
  unfold build_model_payload, get_model_config, map_field, set_item, setdefault, getitem, deref.
  repeat keeps_step.
Qed.

Lemma dict_get_None (k : string) (d : dict) : ~ In k (map fst d) -> dict_get k d = None.
Proof.
  induction d as [|[k' v] d IH]; cbn; [done|].
  intros Hk. destruct (String.eqb_spec k k'); [subst; tauto|]. apply IH. tauto.
Qed.

Lemma get_model_config_unsupported {B} (model : string) (k : N -> M B) (h : heap) :
  ~ In model (map fst SUPPORTED_MODELS) -> init_heap ⊆ h ->
  bind (get_model_config model) k h =
  (inl (HTTPException 400
          ("Unsupported model '" ++ model ++ "'. Supported models: "
           ++ String.concat ", " (map fst SUPPORTED_MODELS))), h).
Proof.
  intros Hm Hh. unfold get_model_config, SUPPORTED_MODELS_loc.
  rewrite bind_assoc_at, bind_read_at, (reg_lookup h 0 SUPPORTED_MODELS Hh eq_refl).
  rewrite (dict_get_None model SUPPORTED_MODELS Hm). reflexivity.
Qed.

(** Two runs on heaps extending [init_heap] yield the same outcome. *)
Lemma build_model_payload_local (h h' : heap) model image_url prompt seconds resolution audio_url :
  init_heap ⊆ h -> init_heap ⊆ h' ->
  payload_result (build_model_payload model image_url prompt seconds resolution audio_url h) =
  payload_result (build_model_payload model image_url prompt seconds resolution audio_url h').
Proof.
  intros Hh Hh'.
  destruct (decide (In model (map fst SUPPORTED_MODELS))) as [Hin|Hnin].
  - cbn in Hin. destruct Hin as [<-|[<-|[<-|[<-|[<-|[]]]]]];
      unfold build_model_payload; repeat (first [sym_step h Hh | reg h' Hh']).
    all: reflexivity.
  - unfold build_model_payload.
    rewrite !(get_model_config_unsupported model _ _ Hnin); done.
Qed.

(** C10: a call of [build_model_payload] leaves every object that existed
    before it unchanged (in particular the registry dicts, [default_params] and
    [param_mapping]), so a second call with the same inputs returns the same
    payload contents. *)
Theorem build_model_payload_frame (h : heap) (model image_url prompt : string) (seconds : Z)
    (resolution : string) (audio_url : option string) :
  (forall l d, hlookup h l = Some d ->
     hlookup (build_model_payload model image_url prompt seconds resolution audio_url h).2 l
     = Some d) /\
  (init_heap ⊆ h ->
   payload_result
     (build_model_payload model image_url prompt seconds resolution audio_url
        (build_model_payload model image_url prompt seconds resolution audio_url h).2)
   = payload_result (build_model_payload model image_url prompt seconds resolution audio_url h)).
Proof.
  assert (Hk : h ⊆ (build_model_payload model image_url prompt seconds resolution audio_url h).2)
    by (apply (build_model_payload_keeps h); reflexivity).
  split.
  - intros l d Hl. unfold hlookup in *. eapply lookup_weaken; eauto.
  - intros Hh. apply build_model_payload_local; [by transitivity h | exact Hh].
Qed.

(** C3 (counterexample): [minimax/hailuo-02] lists the resolutions
    512p, 768p and 1080p, yet the label ["4k"] is passed through unchanged. *)
Lemma hailuo_resolution_cex :
  ~ In "4k" (registry_resolutions "minimax/hailuo-02") /\
  payload_field "resolution" (build_model_payload "minimax/hailuo-02" "https://e.com/i.jpg" "hi" 6 "4k" None init_heap)
  = Some (VStr "4k").
Proof.
  split; [|vm_compute; reflexivity].
  replace (registry_resolutions "minimax/hailuo-02") with ["512p"; "768p"; "1080p"]
    by reflexivity.
  cbn. intuition discriminate.
Qed.

(** C3 (amended): only [bytedance/seedance-1-lite] falls back to a default
    label (1024p to 1080p, any other label outside its list to 720p);
    [minimax/hailuo-02] and [wan-video/wan-2.1] pass every label through
    unchanged. *)
Theorem resolution_fallback_only_seedance (h : heap) (image_url prompt resolution : string)
    (seconds : Z) (audio_url : option string) :
  init_heap ⊆ h ->
  payload_field "resolution"
    (build_model_payload "minimax/hailuo-02" image_url prompt seconds resolution audio_url h)
  = Some (VStr resolution) /\
  payload_field "resolution"
    (build_model_payload "wan-video/wan-2.1" image_url prompt seconds resolution audio_url h)
  = Some (VStr resolution) /\
  payload_field "resolution"
    (build_model_payload "bytedance/seedance-1-lite" image_url prompt seconds resolution audio_url h)
  = Some (VStr (if existsb (String.eqb resolution) (registry_resolutions "bytedance/seedance-1-lite")
                then resolution
                else if String.eqb resolution "1024p" then "1080p" else "720p")).
Proof.
  intros Hh.
  replace (registry_resolutions "bytedance/seedance-1-lite") with ["480p"; "720p"; "1080p"]
    by reflexivity.
  unfold payload_field. split; [|split]; sym h Hh.
  all: repeat match goal with
         | E : String.eqb ?r _ = true |- _ => is_var r; apply String.eqb_eq in E; subst r
         | E : String.eqb ?r _ = false |- _ => is_var r; rewrite E; clear E
         end; reflexivity.
Qed.

Lemma build_model_payload_frame_witness :
  hlookup init_heap 0 = Some SUPPORTED_MODELS /\ init_heap ⊆ init_heap /\
  hlookup (build_model_payload "minimax/hailuo-02" "https://e.com/i.jpg" "hi" 6 "720p" None
             init_heap).2 0 = Some SUPPORTED_MODELS /\
  payload_result
    (build_model_payload "minimax/hailuo-02" "https://e.com/i.jpg" "hi" 6 "720p" None
       (build_model_payload "minimax/hailuo-02" "https://e.com/i.jpg" "hi" 6 "720p" None
          init_heap).2)
  = payload_result
      (build_model_payload "minimax/hailuo-02" "https://e.com/i.jpg" "hi" 6 "720p" None init_heap).
Proof.
  assert (H0 : hlookup init_heap 0 = Some SUPPORTED_MODELS) by reflexivity.
  assert (Hh : init_heap ⊆ init_heap) by reflexivity.
  split; [exact H0|]. split; [exact Hh|]. split.
  - exact (proj1 (build_model_payload_frame init_heap "minimax/hailuo-02" "https://e.com/i.jpg" "hi"
                    6 "720p" None) 0%N SUPPORTED_MODELS H0).
  - exact (proj2 (build_model_payload_frame init_heap "minimax/hailuo-02" "https://e.com/i.jpg" "hi"
                    6 "720p" None) Hh).
Defined.

Lemma resolution_fallback_only_seedance_witness :
  init_heap ⊆ init_heap /\
  payload_field "resolution"
    (build_model_payload "bytedance/seedance-1-lite" "https://e.com/i.jpg" "hi" 6 "4k" None init_heap)
  = Some (VStr "720p").
Proof.
  assert (Hh : init_heap ⊆ init_heap) by reflexivity.
  split; [exact Hh|].
  exact (proj2 (proj2 (resolution_fallback_only_seedance init_heap "https://e.com/i.jpg" "hi" "4k" 6
                         None Hh))).
Defined.

(** ** Poll loop *)

Lemma poll_loop_skip py_repr model pre rest n :
  forallb nonterminal_ok pre = true ->
  poll_loop py_repr model (pre ++ rest) n = poll_loop py_repr model rest (n + length pre).
Proof.
  revert n. induction pre as [|r pre IH]; intros n Hpre; cbn [app length].
  - now rewrite Nat.add_0_r.
  - cbn in Hpre. apply andb_true_iff in Hpre as [Hr Hpre].
    unfold nonterminal_ok in Hr. apply andb_true_iff in Hr as [Hok Hnt].
    cbn. rewrite Hok. cbn. apply negb_true_iff in Hnt. rewrite Hnt.
    rewrite IH by exact Hpre. f_equal. lia.
Qed.

(** C4: after non-terminal polls, a [succeeded] status returns the last
    element of a non-empty list output, returns a string output as is, and
    raises the 500 missing-output error for any other output (an empty list,
    no output field, ...). *)
Theorem poll_succeeded_output py_repr model pre r post n :
  forallb nonterminal_ok pre = true -> resp_ok r = true ->
  py_get (resp_data r) "status" = VStr "succeeded" ->
  let run := poll_loop py_repr model (pre ++ r :: post) n in
  let out := py_get (resp_data r) "output" in
  run.2 = n + length pre + 1 /\
  (forall xs, out = VList xs -> xs <> [] -> run.1 = Returned (List.last xs VNone)) /\
  (forall s, out = VStr s -> run.1 = Returned (VStr s)) /\
  ((forall xs, out = VList xs -> xs = []) -> (forall s, out <> VStr s) ->
   run.1 = Raised (HTTPException 500 "Replicate missing output URL")).
Proof.
  intros Hpre Hok Hst run out. subst run out.
  rewrite poll_loop_skip by exact Hpre. cbn. rewrite Hok, Hst. cbn.
  destruct (py_get (resp_data r) "output") as [| | | | s | [|x xs] |] eqn:Ho;
    repeat split; cbn; try lia; intros; try congruence;
    repeat match goal with H : forall _, _ -> _ |- _ => specialize (H _ eq_refl) end;
    try congruence; match goal with H : VList _ = VList _ |- _ => injection H as <-; reflexivity end.
Qed.

(** C5: after non-terminal polls, a [failed] or [canceled] status raises a
    400 error whose detail carries the reported error and logs; no status
    request follows it, whatever the later responses would have been. *)
Theorem poll_failed_stops py_repr model pre r post n st :
  forallb nonterminal_ok pre = true -> resp_ok r = true ->
  py_get (resp_data r) "status" = VStr st -> st = "failed" \/ st = "canceled" ->
  poll_loop py_repr model (pre ++ r :: post) n =
  (Raised (HTTPException 400
     (model ++ " " ++ st ++ ": " ++ py_str py_repr (py_get (resp_data r) "error")
      ++ " | logs: " ++ py_str py_repr (py_get (resp_data r) "logs"))),
   n + length pre + 1).
Proof.
  intros Hpre Hok Hst Hfc.
  rewrite poll_loop_skip by exact Hpre. cbn. rewrite Hok, Hst.
  destruct Hfc as [-> | ->]; cbn; f_equal; lia.
Qed.

Lemma poll_succeeded_output_witness :
  forallb nonterminal_ok [poll_response [("status", VStr "running")];
                          poll_response [("status", VStr "running")]] = true /\
  (poll_loop json_repr "wan-video/wan-2.1"
     ([poll_response [("status", VStr "running")]; poll_response [("status", VStr "running")]]
      ++ [poll_response [("status", VStr "succeeded");
                         ("output", VList [VStr "a"; VStr "b"; VStr "final.mp4"])]]) 0).1
  = Returned (VStr "final.mp4") /\
  (poll_loop json_repr "wan-video/wan-2.1"
     ([] ++ [poll_response [("status", VStr "succeeded"); ("output", VList [])]]) 0).1
  = Raised (HTTPException 500 "Replicate missing output URL").
Proof.
  assert (Hpre : forallb nonterminal_ok [poll_response [("status", VStr "running")];
                                         poll_response [("status", VStr "running")]] = true)
    by reflexivity.
  split; [exact Hpre|]. split.
  - apply (proj1 (proj2 (poll_succeeded_output json_repr "wan-video/wan-2.1" _
             (poll_response [("status", VStr "succeeded");
                             ("output", VList [VStr "a"; VStr "b"; VStr "final.mp4"])])
             [] 0 Hpre eq_refl eq_refl))
             [VStr "a"; VStr "b"; VStr "final.mp4"] eq_refl).
    discriminate.
  - apply (proj2 (proj2 (proj2 (poll_succeeded_output json_repr "wan-video/wan-2.1" []
             (poll_response [("status", VStr "succeeded"); ("output", VList [])])
             [] 0 eq_refl eq_refl eq_refl)))).
    + intros xs Hxs. injection Hxs as <-. reflexivity.
    + discriminate.
Defined.

Lemma poll_failed_stops_witness :
  poll_loop json_repr "wan-video/wan-2.1"
    ([] ++ poll_response [("status", VStr "failed"); ("error", VStr "boom")]
        :: [poll_response [("status", VStr "succeeded"); ("output", VStr "late.mp4")]]) 0
  = (Raised (HTTPException 400 "wan-video/wan-2.1 failed: boom | logs: None"), 1).
Proof.
  exact (poll_failed_stops json_repr "wan-video/wan-2.1" []
           (poll_response [("status", VStr "failed"); ("error", VStr "boom")])
           [poll_response [("status", VStr "succeeded"); ("output", VStr "late.mp4")]] 0 "failed"
           eq_refl eq_refl eq_refl (or_introl eq_refl)).
Defined.

(** ** Storage keys *)

Local Arguments String.append : simpl nomatch.

Lemma str_app_assoc (a b c : string) : (a ++ b) ++ c = a ++ b ++ c.
Proof. induction a; cbn; congruence. Qed.

Lemma app_dot_split (a b e : string) : a ++ b ++ "." ++ e = (a ++ b) ++ "." ++ e.
Proof. symmetry. apply str_app_assoc. Qed.

Lemma str_all_app p (a b : string) : str_all p (a ++ b) = str_all p a && str_all p b.
Proof. induction a as [|c a IH]; cbn; [reflexivity|]. rewrite IH. apply andb_assoc. Qed.

Lemma str_all_impl (p q : ascii -> bool) s :
  (forall c, p c = true -> q c = true) -> str_all p s = true -> str_all q s = true.
Proof.
  intros Hpq. induction s as [|c s IH]; cbn; [done|].
  rewrite !andb_true_iff. intros [Hc Hs]. auto.
Qed.

Lemma str_all_substring p n m s : str_all p s = true -> str_all p (substring n m s) = true.
Proof.
  revert n m. induction s as [|c s IH]; intros [|n] [|m]; cbn; try done.
  - rewrite andb_true_iff. intros [Hc Hs]. rewrite Hc. cbn. apply (IH 0). done.
  - rewrite andb_true_iff. intros [_ Hs]. apply IH. done.
  - rewrite andb_true_iff. intros [_ Hs]. apply IH. done.
Qed.

Lemma hex_char_plain n : (0 <= n < 16)%Z -> plain_char (hex_char n) = true.
Proof.
  intros Hn. rewrite <- (Z2Nat.id n) by lia.
  assert (Hk : (Z.to_nat n < 16)%nat) by lia.
  revert Hk. generalize (Z.to_nat n) as k. intros k Hk.
  do 16 (destruct k as [|k]; [reflexivity|]). lia.
Qed.

Lemma hex_digits_plain k z : str_all plain_char (hex_digits k z) = true.
Proof.
  revert z. induction k as [|k IH]; intros z; cbn [hex_digits]; [reflexivity|].
  rewrite str_all_app, IH. cbn. rewrite hex_char_plain by (apply Z.mod_pos_bound; lia).
  reflexivity.
Qed.

Lemma uuid_str_plain z : str_all plain_char (uuid_str z) = true.
Proof.
  unfold uuid_str. rewrite !str_all_app.
  rewrite !str_all_substring by apply hex_digits_plain. reflexivity.
Qed.

Lemma uuid_str_nonempty z : uuid_str z <> "".
Proof. unfold uuid_str. destruct (substring 0 8 _); discriminate. Qed.

Lemma replace_fuel_nodot f s :
  str_all (fun c => negb (Ascii.eqb "." c)) s = true -> replace_fuel f ".." "" s = s.
Proof.
  revert s. induction f as [|f IH]; intros [|c s]; cbn; try done.
  rewrite andb_true_iff, negb_true_iff. intros [Hc Hs]. rewrite Hc. f_equal. auto.
Qed.

Lemma py_replace_nodot s :
  str_all (fun c => negb (Ascii.eqb "." c)) s = true -> py_replace ".." "" s = s.
Proof. apply replace_fuel_nodot. Qed.

Lemma list_ascii_of_string_app (a b : string) :
  list_ascii_of_string (a ++ b) = app (list_ascii_of_string a) (list_ascii_of_string b).
Proof. induction a; cbn; congruence. Qed.

Lemma string_of_list_ascii_app (a b : list ascii) :
  string_of_list_ascii (app a b) = string_of_list_ascii a ++ string_of_list_ascii b.
Proof. induction a; cbn; congruence. Qed.

Lemma str_rev_app a b : str_rev (a ++ b) = str_rev b ++ str_rev a.
Proof.
  unfold str_rev. rewrite list_ascii_of_string_app, rev_app_distr, string_of_list_ascii_app.
  reflexivity.
Qed.

Lemma str_rev_involutive s : str_rev (str_rev s) = s.
Proof.
  unfold str_rev. rewrite list_ascii_of_string_of_list_ascii, rev_involutive.
  apply string_of_list_ascii_of_string.
Qed.

Lemma str_all_list p s : str_all p s = forallb p (list_ascii_of_string s).
Proof. induction s; cbn; congruence. Qed.

Lemma str_all_rev p s : str_all p (str_rev s) = str_all p s.
Proof.
  rewrite !str_all_list. unfold str_rev. rewrite list_ascii_of_string_of_list_ascii.
  induction (list_ascii_of_string s) as [|c l IH]; cbn; [reflexivity|].
  rewrite forallb_app, IH. cbn. rewrite andb_true_r. apply andb_comm.
Qed.

Lemma lstrip_stop cs c s : existsb (Ascii.eqb c) cs = false -> lstrip cs (String c s) = String c s.
Proof. intros H. cbn. rewrite H. reflexivity. Qed.

(** Stripping slashes leaves ["users/"] followed by a non-empty run of plain
    characters unchanged. *)
Lemma py_strip_users u :
  u <> "" -> str_all plain_char u = true -> py_strip ["/"%char] ("users/" ++ u) = "users/" ++ u.
Proof.
  intros Hne Hu. unfold py_strip.
  assert (E0 : lstrip ["/"%char] ("users/" ++ u) = "users/" ++ u) by reflexivity.
  rewrite E0.
  rewrite str_rev_app.
  assert (Hr : str_all plain_char (str_rev u) = true) by (rewrite str_all_rev; exact Hu).
  destruct (str_rev u) as [|c r] eqn:E.
  - exfalso. apply Hne. rewrite <- (str_rev_involutive u), E. reflexivity.
  - cbn in Hr. apply andb_true_iff in Hr as [Hc _].
    unfold plain_char in Hc. apply andb_true_iff in Hc as [_ Hc].
    apply negb_true_iff in Hc.
    change (String c r ++ ?x) with (String c (r ++ x)).
    rewrite (lstrip_stop _ c) by (cbn; rewrite Ascii.eqb_sym, Hc; reflexivity).
    change (String c (r ++ ?x)) with (String c r ++ x).
    rewrite <- E, <- str_rev_app. apply str_rev_involutive.
Qed.

Lemma has_dotdot_nodot s :
  str_all (fun c => negb (Ascii.eqb "." c)) s = true -> has_dotdot s = false.
Proof.
  induction s as [|c s IH]; [reflexivity|].
  cbn [str_all]. rewrite andb_true_iff, negb_true_iff. intros [Hc Hs].
  destruct s as [|c' s']; [reflexivity|].
  cbn [has_dotdot]. rewrite Hc. cbn. apply IH, Hs.
Qed.

Lemma has_dotdot_single_dot x y :
  str_all (fun c => negb (Ascii.eqb "." c)) x = true ->
  str_all (fun c => negb (Ascii.eqb "." c)) y = true ->
  has_dotdot (x ++ "." ++ y) = false.
Proof.
  intros Hx Hy. induction x as [|c x IH].
  - destruct y as [|c' y']; [reflexivity|].
    cbn [str_all] in Hy. apply andb_true_iff in Hy as [Hc' Hy'].
    apply negb_true_iff in Hc'.
    change (((Ascii.eqb "." "." && Ascii.eqb "." c') || has_dotdot (String c' y')) = false).
    rewrite Hc', andb_false_r. apply has_dotdot_nodot. cbn [str_all]. rewrite Hc'. exact Hy'.
  - cbn [str_all] in Hx. apply andb_true_iff in Hx as [Hc Hx].
    apply negb_true_iff in Hc.
    destruct x as [|c1 x1].
    + change (((Ascii.eqb "." c && Ascii.eqb "." ".") || has_dotdot ("" ++ "." ++ y)) = false).
      rewrite Hc. cbn [andb orb]. apply IH. exact Hx.
    + change (((Ascii.eqb "." c && Ascii.eqb "." c1) || has_dotdot (String c1 x1 ++ "." ++ y))
              = false).
      rewrite Hc. cbn [andb orb]. apply IH. exact Hx.
Qed.

Lemma plain_nodot s :
  str_all plain_char s = true -> str_all (fun c => negb (Ascii.eqb "." c)) s = true.
Proof. apply str_all_impl. unfold plain_char. intros c H. apply andb_true_iff in H. tauto. Qed.

Lemma user_prefix_sanitized z :
  py_replace ".." "" (let stripped := py_strip ["/"%char] ("users/" ++ uuid_str z) in
                      if String.eqb stripped "" then "anonymous" else stripped)
  = "users/" ++ uuid_str z.
Proof.
  cbv zeta. rewrite py_strip_users by (apply uuid_str_nonempty || apply uuid_str_plain).
  assert (E : String.eqb ("users/" ++ uuid_str z) "" = false) by reflexivity.
  rewrite E. apply py_replace_nodot.
  rewrite str_all_app, (plain_nodot _ (uuid_str_plain z)). reflexivity.
Qed.

(** C8: a user id that parses gives keys under [users/<canonical uuid>/];
    no user context gives keys under [anonymous/]; an id that does not parse
    is rejected with a 400; and the keys of the handlers never contain [..]. *)
Theorem storage_key_scoping (uuid_parse : string -> option Z) :
  (forall ctx z category uuid4 extension, uuid_parse (uc_id ctx) = Some z ->
     user_storage_key uuid_parse (Some ctx) category uuid4 extension =
     inr ("users/" ++ uuid_str z ++ "/" ++ category ++ "/" ++ uuid_str uuid4 ++ "." ++ extension)) /\
  (forall category uuid4 extension,
     user_storage_key uuid_parse None category uuid4 extension =
     inr ("anonymous/" ++ category ++ "/" ++ uuid_str uuid4 ++ "." ++ extension)) /\
  (forall ctx category uuid4 extension, uuid_parse (uc_id ctx) = None ->
     user_storage_key uuid_parse (Some ctx) category uuid4 extension =
     inl (HTTPException 400 "user_context.id must be a valid UUID")) /\
  (forall ctx category extension uuid4 key, In (category, extension) handler_key_kinds ->
     user_storage_key uuid_parse ctx category uuid4 extension = inr key ->
     has_dotdot key = false).
Proof.
  assert (Huser : forall ctx z category uuid4 extension, uuid_parse (uc_id ctx) = Some z ->
     user_storage_key uuid_parse (Some ctx) category uuid4 extension =
     inr ("users/" ++ uuid_str z ++ "/" ++ category ++ "/" ++ uuid_str uuid4 ++ "." ++ extension)).
  { intros ctx z category uuid4 extension Hz.
    unfold user_storage_key, resolve_user_storage_prefix. rewrite Hz.
    unfold build_storage_key. rewrite user_prefix_sanitized, str_app_assoc. reflexivity. }
  assert (Hanon : forall category uuid4 extension,
     user_storage_key uuid_parse None category uuid4 extension =
     inr ("anonymous/" ++ category ++ "/" ++ uuid_str uuid4 ++ "." ++ extension)).
  { intros. reflexivity. }
  split; [exact Huser|]. split; [exact Hanon|]. split.
  - intros ctx category uuid4 extension Hn.
    unfold user_storage_key, resolve_user_storage_prefix. rewrite Hn. reflexivity.
  - intros ctx category extension uuid4 key Hk Hkey.
    assert (Hce : str_all (fun c => negb (Ascii.eqb "." c)) category = true /\
                  str_all (fun c => negb (Ascii.eqb "." c)) extension = true).
    { cbn in Hk. destruct Hk as [Hk | [Hk | []]]; injection Hk as <- <-; split; reflexivity. }
    destruct Hce as [Hc He].
    destruct ctx as [ctx|]; [destruct (uuid_parse (uc_id ctx)) as [z|] eqn:Hz|].
    + rewrite (Huser _ z) in Hkey by exact Hz. match type of Hkey with inr ?k0 = inr _ => assert (key = k0) as -> by congruence end.
      rewrite !app_dot_split. apply has_dotdot_single_dot; [|exact He].
      rewrite !str_all_app, Hc, (plain_nodot _ (uuid_str_plain z)),
        (plain_nodot _ (uuid_str_plain uuid4)). reflexivity.
    + unfold user_storage_key, resolve_user_storage_prefix in Hkey. rewrite Hz in Hkey.
      discriminate.
    + rewrite Hanon in Hkey. match type of Hkey with inr ?k0 = inr _ => assert (key = k0) as -> by congruence end.
      rewrite !app_dot_split. apply has_dotdot_single_dot; [|exact He].
      rewrite !str_all_app, Hc, (plain_nodot _ (uuid_str_plain uuid4)). reflexivity.
Qed.

Lemma storage_key_scoping_witness :
  uuid_UUID (uc_id zero_uuid_user) = Some 0%Z /\
  user_storage_key uuid_UUID (Some zero_uuid_user) "videos" 7 "mp4"
  = inr "users/00000000-0000-0000-0000-000000000000/videos/00000000-0000-0000-0000-000000000007.mp4" /\
  uuid_UUID (uc_id traversal_user) = None /\
  user_storage_key uuid_UUID (Some traversal_user) "audio" 7 "mp3"
  = inl (HTTPException 400 "user_context.id must be a valid UUID") /\
  has_dotdot "users/00000000-0000-0000-0000-000000000000/videos/00000000-0000-0000-0000-000000000007.mp4"
  = false.
Proof.
  assert (H0 : uuid_UUID (uc_id zero_uuid_user) = Some 0%Z) by (vm_compute; reflexivity).
  assert (H1 : uuid_UUID (uc_id traversal_user) = None) by (vm_compute; reflexivity).
  assert (Hk : In ("videos", "mp4") handler_key_kinds) by (left; reflexivity).
  pose proof (storage_key_scoping uuid_UUID) as [Hu [_ [Hbad Hdd]]].
  split; [exact H0|]. split; [exact (Hu zero_uuid_user 0%Z "videos" 7%Z "mp4" H0)|].
  split; [exact H1|]. split; [exact (Hbad traversal_user "audio" 7%Z "mp3" H1)|].
  exact (Hdd (Some zero_uuid_user) "videos" "mp4" 7%Z _ Hk (Hu zero_uuid_user 0%Z "videos" 7%Z "mp4" H0)).
Defined.

(** ** Request pipeline, muxer and speech synthesis *)

Lemma str_length_app (a b : string) : String.length (a ++ b) = String.length a + String.length b.
Proof. induction a; cbn; congruence. Qed.


Ltac red_run :=
  cbv beta iota zeta delta [of_sum raise ret bind logged emit try_except app In deleted_keys fst snd orb].

(** Prove [In ev t] for a computed trace [t]. *)
Ltac find_in := vm_compute; repeat (first [left; reflexivity | right]).

Ltac close_run :=
  intros Hup Hins;
  repeat match goal with
         | H : _ \/ _ |- _ => destruct H as [H|H]
         | H : False |- _ => destruct H
         end;
  try discriminate; split; congruence.

(** C1: in [create_job_with_prompt], when the final upload succeeded and the
    metadata insert raised [e], the delete is called exactly once, with the
    uploaded key, and [e] itself is raised to the caller. *)
Theorem prompt_only_compensating_delete uuid_parse cfg w req k record e :
  let run := create_job_with_prompt uuid_parse cfg w req [] in
  In (EvUpload k None) run.2 -> In (EvInsert record (Some e)) run.2 ->
  run.1 = inl e /\ deleted_keys run.2 = [k].
Proof.
  intros run. subst run.
  unfold create_job_with_prompt, of_sum, generate_video_from_prompt, fetch_binary,
    supabase_upload, insert_pet_video, supabase_delete, logged, emit, try_except,
    bind, ret, raise.
  red_run.
  destruct (resolve_user_storage_prefix _ _) as [e0|prefix]; red_run; [close_run|].
  destruct (String.eqb _ "wan-video/wan-2.2-s2v"); red_run; [close_run|].
  destruct (w_generate w _) as [e1|url]; red_run; [close_run|].
  destruct (w_fetch w url) as [e2|bytes]; red_run; [close_run|].
  destruct (supabase_env_missing cfg) eqn:Henv; red_run; [close_run|].
  destruct (w_upload w _) as [st txt|]; red_run;
    [destruct (400 <=? st)%Z; red_run; [close_run|] | close_run].
  destruct (w_insert w) as [st' txt'|]; red_run;
    [destruct (400 <=? st')%Z; red_run; [|close_run] |].

  all: destruct (String.eqb _ ""); red_run; [close_run|].
  all: destruct (w_delete w); red_run; close_run.
Qed.

(** C2 (defect): when both downloads succeed and the encoder exits non-zero,
    [mux_video_audio] raises [CalledProcessError] and leaves the temporary
    directory with the downloaded video and audio in it. *)
Theorem mux_encoder_failure_leaves_files mw v a video_url audio_url (m : fs) :
  mw_video mw = Some v -> mw_audio mw = Some a -> mw_ffmpeg_output mw = None ->
  let run := mux_video_audio mw video_url audio_url m in
  run.1 = inl CalledProcessError /\
  run.2 !! mw_tmpdir mw = Some "" /\
  run.2 !! path_join (mw_tmpdir mw) "in.mp4" = Some v /\
  run.2 !! path_join (mw_tmpdir mw) "in.mp3" = Some a.
Proof.
  intros Hv Ha Hf run. subst run.
  unfold mux_video_audio, mkdtemp, http_get, write_file, bind, ret, raise.
  rewrite Hv, Ha, Hf. cbn.
  assert (Hva : path_join (mw_tmpdir mw) "in.mp4" <> path_join (mw_tmpdir mw) "in.mp3").
  { unfold path_join. intros E. apply (inj (String.append (mw_tmpdir mw))) in E. discriminate. }
  assert (Hd : forall n, String.length n > 0 -> mw_tmpdir mw <> path_join (mw_tmpdir mw) n).
  { unfold path_join. intros n Hn E. apply (f_equal String.length) in E.
    rewrite str_length_app in E. cbn in E. lia. }
  split; [reflexivity|]. split; [|split].
  - rewrite lookup_insert_ne by (apply not_eq_sym, Hd; cbn; lia).
    rewrite lookup_insert_ne by (apply not_eq_sym, Hd; cbn; lia).
    apply lookup_insert_eq.
  - rewrite lookup_insert_ne by (intros E; apply Hva; symmetry; exact E).
    apply lookup_insert_eq.
  - apply lookup_insert_eq.
Qed.

(** C9 (counterexample): without an ElevenLabs key, an over-long text is
    answered with the 500 configuration error, not the 400 length error. *)
Lemma tts_missing_key_precedes_length_check :
  elevenlabs_tts_bytes (cfg_example "") world_example (repeat 97%N 601) "voice" [] =
  (inl (HTTPException 500 "ELEVEN_API_KEY not set"), []).
Proof. reflexivity. Qed.

(** C9 (amended): a text longer than [TTS_MAX_CHARS] is rejected before any
    request to the speech provider (the trace is unchanged): with a 400 length
    error when the key is set, with the 500 configuration error otherwise. *)
Theorem tts_length_checked_locally cfg w text voice_id (t : trace) :
  (TTS_MAX_CHARS cfg < Z.of_nat (length text))%Z ->
  elevenlabs_tts_bytes cfg w text voice_id t =
  (inl (if String.eqb (ELEVEN_API_KEY cfg) "" then HTTPException 500 "ELEVEN_API_KEY not set"
        else HTTPException 400 ("Text too long (max " ++ dec_of_Z (TTS_MAX_CHARS cfg)
                                ++ " chars). Please shorten.")), t).
Proof.
  intros Hlen. unfold elevenlabs_tts_bytes.
  destruct (String.eqb (ELEVEN_API_KEY cfg) ""); [reflexivity|].
  apply Z.ltb_lt in Hlen. rewrite Hlen. reflexivity.
Qed.

Lemma prompt_only_compensating_delete_witness :
  let run := create_job_with_prompt uuid_UUID (cfg_example "sk") world_example req_example [] in
  let key := build_storage_key "anonymous" "videos" 7 "mp4" in
  let e := HTTPException 400 "Supabase metadata insert failed: bad record" in
  let record := {|
    rec_user_id := None;
    rec_video_url := "https://x.supabase.co/storage/v1/object/public/pets/" ++ key ++ "?download=1";
    rec_image_url := "https://e.com/pet.jpg"; rec_script := None; rec_prompt := "a dog";
    rec_voice_id := None; rec_resolution := "720p"; rec_duration := 6 |} in
  In (EvUpload key None) run.2 /\ In (EvInsert record (Some e)) run.2 /\
  run.1 = inl e /\ deleted_keys run.2 = [key].
Proof.
  intros run key e record.
  assert (Hup : In (EvUpload key None) run.2) by find_in.
  assert (Hins : In (EvInsert record (Some e)) run.2) by find_in.
  split; [exact Hup|]. split; [exact Hins|].
  exact (prompt_only_compensating_delete uuid_UUID (cfg_example "sk") world_example req_example
           key record e Hup Hins).
Defined.

Lemma mux_encoder_failure_leaves_files_witness :
  mw_video mw_encoder_fails = Some "VIDEO" /\ mw_audio mw_encoder_fails = Some "AUDIO" /\
  mw_ffmpeg_output mw_encoder_fails = None /\
  (mux_video_audio mw_encoder_fails "https://e.com/v.mp4" "https://e.com/a.mp3" ∅).1
  = inl CalledProcessError /\
  (mux_video_audio mw_encoder_fails "https://e.com/v.mp4" "https://e.com/a.mp3" ∅).2
    !! "/tmp/tmpab12/in.mp3" = Some "AUDIO".
Proof.
  pose proof (mux_encoder_failure_leaves_files mw_encoder_fails "VIDEO" "AUDIO"
                "https://e.com/v.mp4" "https://e.com/a.mp3" ∅ eq_refl eq_refl eq_refl)
    as [Hr [_ [_ Ha]]].
  split; [reflexivity|]. split; [reflexivity|]. split; [reflexivity|].
  split; [exact Hr | exact Ha].
Defined.

Lemma tts_length_checked_locally_witness :
  (TTS_MAX_CHARS (cfg_example "sk") < Z.of_nat (length (repeat 97%N 601)))%Z /\
  elevenlabs_tts_bytes (cfg_example "sk") world_example (repeat 97%N 601) "voice" []
  = (inl (HTTPException 400 "Text too long (max 600 chars). Please shorten."), []).
Proof.
  assert (Hlen : (TTS_MAX_CHARS (cfg_example "sk") < Z.of_nat (length (repeat 97%N 601)))%Z)
    by (cbn; lia).
  split; [exact Hlen|].
  exact (tts_length_checked_locally (cfg_example "sk") world_example (repeat 97%N 601) "voice" []
           Hlen).
Defined.

(** ** Authentication *)

Lemma all_ascii (p : ascii -> bool) :
  forallb p (map ascii_of_nat (seq 0 256)) = true -> forall c, p c = true.
Proof.
  intros H c. rewrite forallb_forall in H. rewrite <- (ascii_nat_embedding c).
  apply H. apply in_map. apply in_seq. pose proof (nat_ascii_bounded c). lia.
Qed.

Lemma py_lower_char_space c : Ascii.eqb (py_lower_char c) " " = Ascii.eqb c " ".
Proof.
  apply Bool.eqb_prop.
  revert c. apply (all_ascii (fun c => Bool.eqb (Ascii.eqb (py_lower_char c) " ") (Ascii.eqb c " "))).
  vm_compute. reflexivity.
Qed.

Lemma py_lower_no_space s : no_space (py_lower s) = no_space s.
Proof. induction s as [|c s IH]; cbn; [reflexivity|]. unfold no_space in IH. rewrite IH, py_lower_char_space. reflexivity. Qed.

Lemma py_partition_found s t :
  no_space s = true -> py_partition " " (s ++ String " " t) = (s, " ", t).
Proof.
  induction s as [|c s IH]; cbn; [reflexivity|].
  rewrite andb_true_iff, negb_true_iff. intros [Hc Hs]. rewrite Hc.
  rewrite IH by exact Hs. reflexivity.
Qed.

Lemma py_partition_cases a x y z :
  py_partition " " a = (x, y, z) ->
  (y = "" /\ z = "" /\ x = a) \/ (y = " " /\ a = x ++ String " " z).
Proof.
  revert x y z. induction a as [|c a IH]; intros x y z; cbn.
  - intros E. injection E as <- <- <-. left. auto.
  - destruct (Ascii.eqb c " ") eqn:Hc.
    + apply Ascii.eqb_eq in Hc as ->. intros E. injection E as <- <- <-. right. auto.
    + destruct (py_partition " " a) as [[x' y'] z'] eqn:E'. intros E. injection E as <- <- <-.
      destruct (IH _ _ _ eq_refl) as [[-> [-> ->]] | [-> ->]]; [left|right]; auto.
Qed.

Lemma compare_digest_self t : str_all is_ascii_char t = true -> compare_digest t t = inr true.
Proof. intros H. unfold compare_digest. rewrite H, String.eqb_refl. reflexivity. Qed.

(** With authentication enabled and a non-empty ASCII token configured, a
    request passes iff its header is a scheme equal to "bearer" up to case,
    one space, and the token itself. *)
Theorem require_auth_accepts cfg a :
  API_AUTH_ENABLED cfg = true -> API_AUTH_TOKEN cfg <> "" ->
  str_all is_ascii_char (API_AUTH_TOKEN cfg) = true ->
  require_auth cfg (Some a) = inr tt <->
  exists scheme, py_lower scheme = "bearer" /\ a = scheme ++ " " ++ API_AUTH_TOKEN cfg.
Proof.
  intros Hen Hne Hasc. unfold require_auth. rewrite Hen.
  apply String.eqb_neq in Hne. rewrite Hne. cbn [negb].
  split.
  - destruct (String.eqb a "") eqn:Ha; [discriminate|].
    destruct (py_partition " " a) as [[scheme sep] token] eqn:Hp.
    destruct (String.eqb (py_lower scheme) "bearer") eqn:Hb; [|discriminate].
    destruct (String.eqb token "") eqn:Ht; [discriminate|]. cbn [negb orb].
    unfold compare_digest.
    destruct (str_all is_ascii_char token && str_all is_ascii_char (API_AUTH_TOKEN cfg)); [|discriminate].
    destruct (String.eqb token (API_AUTH_TOKEN cfg)) eqn:Htt; [|discriminate]. intros _.
    apply String.eqb_eq in Htt, Hb. subst token. exists scheme. split; [exact Hb|].
    destruct (py_partition_cases _ _ _ _ Hp) as [[_ [Hz _]] | [_ ->]].
    + apply String.eqb_neq in Hne. congruence.
    + reflexivity.
  - intros [scheme [Hl ->]].
    assert (Hs : no_space scheme = true) by (rewrite <- py_lower_no_space, Hl; reflexivity).
    assert (Ha : String.eqb (scheme ++ " " ++ API_AUTH_TOKEN cfg) "" = false) by (destruct scheme; reflexivity).
    rewrite Ha. change (" " ++ API_AUTH_TOKEN cfg) with (String " " (API_AUTH_TOKEN cfg)).
    rewrite py_partition_found by exact Hs. rewrite Hl, Hne. cbn [String.eqb negb orb].
    rewrite compare_digest_self by exact Hasc. reflexivity.
Qed.



(** With a token configured, a header with no space, a scheme other than
    [bearer] (in any case), or nothing after the space is a 401. *)
Theorem require_auth_malformed cfg scheme t :
  API_AUTH_ENABLED cfg = true -> API_AUTH_TOKEN cfg <> "" -> no_space scheme = true ->
  (scheme <> "" /\ t = None \/ exists t', t = Some t' /\ (py_lower scheme <> "bearer" \/ t' = "")) ->
  require_auth cfg (Some (match t with None => scheme | Some t' => scheme ++ " " ++ t' end)) =
  inl (HTTPException 401 "Authorization header must be 'Bearer <token>'").
Proof.
  intros Hen Hne Hs Hcase. unfold require_auth. rewrite Hen.
  apply String.eqb_neq in Hne. rewrite Hne. cbn [negb].
  destruct Hcase as [[Hsne ->] | [t' [-> Hbad]]].
  - apply String.eqb_neq in Hsne. rewrite Hsne.
    assert (Hp : py_partition " " scheme = (scheme, "", "")).
    { clear Hsne. induction scheme as [|c s IH]; [reflexivity|].
      cbn in Hs |- *. apply andb_true_iff in Hs as [Hc Hs]. apply negb_true_iff in Hc.
      rewrite Hc, IH by exact Hs. reflexivity. }
    rewrite Hp. rewrite orb_true_r. reflexivity.
  - assert (Ha : String.eqb (scheme ++ " " ++ t') "" = false) by (destruct scheme; reflexivity).
    rewrite Ha. change (" " ++ t') with (String " " t').
    rewrite py_partition_found by exact Hs.
    destruct Hbad as [Hb | ->].
    + apply String.eqb_neq in Hb. rewrite Hb. reflexivity.
    + rewrite orb_true_r. reflexivity.
Qed.

(** With a well-formed bearer header carrying [t], the result of the
    comparison decides: a match passes, a mismatch is a 403, and a
    non-ASCII [t] or configured token raises [TypeError], even when they are equal. *)
Theorem require_auth_bearer cfg scheme t :
  API_AUTH_ENABLED cfg = true -> API_AUTH_TOKEN cfg <> "" ->
  py_lower scheme = "bearer" -> t <> "" ->
  require_auth cfg (Some (scheme ++ " " ++ t)) =
  if str_all is_ascii_char t && str_all is_ascii_char (API_AUTH_TOKEN cfg) then
    if String.eqb t (API_AUTH_TOKEN cfg) then inr tt else inl (HTTPException 403 "Invalid API token")
  else inl TypeError.
Proof.
  intros Hen Hne Hl Ht. unfold require_auth. rewrite Hen.
  apply String.eqb_neq in Hne. rewrite Hne. cbn [negb].
  assert (Hs : no_space scheme = true) by (rewrite <- py_lower_no_space, Hl; reflexivity).
  assert (Ha : String.eqb (scheme ++ " " ++ t) "" = false) by (destruct scheme; reflexivity).
  rewrite Ha. change (" " ++ t) with (String " " t).
  rewrite py_partition_found by exact Hs. rewrite Hl.
  apply String.eqb_neq in Ht. rewrite Ht. cbn [String.eqb negb orb].
  unfold compare_digest.
  destruct (str_all is_ascii_char t && str_all is_ascii_char (API_AUTH_TOKEN cfg)); [|reflexivity].
  destruct (String.eqb t (API_AUTH_TOKEN cfg)); reflexivity.
Qed.

(** ** Storage keys for any prefix, and canonical user ids *)

Lemma replace_fuel_head f s :
  starts_dot s = false -> starts_dot (replace_fuel f ".." "" s) = false.
Proof.
  destruct f as [|f]; [done|]. destruct s as [|c s]; [done|].
  cbn [starts_dot]. intros Hc. cbn [replace_fuel strip_prefix]. rewrite Hc. exact Hc.
Qed.

Lemma has_dotdot_cons2 a b r :
  has_dotdot (String a (String b r)) = (Ascii.eqb "." a && Ascii.eqb "." b) || has_dotdot (String b r).
Proof. reflexivity. Qed.

Lemma replace_fuel_no_dotdot f s :
  (String.length s <= f)%nat -> has_dotdot (replace_fuel f ".." "" s) = false.
Proof.
  revert s. induction f as [|f IH]; intros s Hf.
  - destruct s; [reflexivity|cbn in Hf; lia].
  - destruct s as [|c s]; [reflexivity|]. cbn in Hf.
    cbn [replace_fuel strip_prefix].
    destruct (Ascii.eqb "." c) eqn:Hc.
    + destruct s as [|c' s'].
      * destruct f; reflexivity.
      * destruct (Ascii.eqb "." c') eqn:Hc'.
        -- cbn [strip_prefix]. cbn [String.append]. apply IH. cbn in Hf. lia.
        -- cbn [strip_prefix].
           assert (Hn : has_dotdot (replace_fuel f ".." "" (String c' s')) = false)
             by (apply IH; lia).
           assert (Hh : starts_dot (replace_fuel f ".." "" (String c' s')) = false)
             by (apply replace_fuel_head; exact Hc').
           destruct (replace_fuel f ".." "" (String c' s')) as [|d r]; [reflexivity|].
           cbn [starts_dot] in Hh. rewrite has_dotdot_cons2, Hh, Hn, andb_false_r. reflexivity.
    + assert (Hn : has_dotdot (replace_fuel f ".." "" s) = false) by (apply IH; lia).
      destruct (replace_fuel f ".." "" s) as [|d r]; [reflexivity|].
      rewrite has_dotdot_cons2, Hc, Hn. reflexivity.
Qed.

Lemma has_dotdot_app_cut a c b :
  Ascii.eqb "." c = false -> has_dotdot (a ++ String c b) = has_dotdot a || has_dotdot (String c b).
Proof.
  intros Hc. induction a as [|x a IH]; [reflexivity|].
  destruct a as [|y a'].
  - cbn [String.append has_dotdot]. rewrite Hc, andb_false_r. reflexivity.
  - change (String x (String y a') ++ String c b) with (String x (String y (a' ++ String c b))).
    rewrite !has_dotdot_cons2.
    change (String y (a' ++ String c b)) with (String y a' ++ String c b).
    rewrite IH. apply orb_assoc.
Qed.

Lemma has_dotdot_cons_nodot c x :
  Ascii.eqb "." c = false -> has_dotdot (String c x) = has_dotdot x.
Proof. intros Hc. destruct x as [|d r]; [reflexivity|]. rewrite has_dotdot_cons2, Hc. reflexivity. Qed.

(** Whatever the prefix, a key built with a dot-free category and extension
    never contains [".."]. *)
Theorem build_storage_key_no_dotdot prefix category uuid4 extension :
  nodot category = true -> nodot extension = true ->
  has_dotdot (build_storage_key prefix category uuid4 extension) = false.
Proof.
  intros Hc He. unfold build_storage_key. cbv zeta.
  change ("/" ++ ?x) with (String "/" x).
  rewrite has_dotdot_app_cut by reflexivity.
  unfold py_replace. rewrite replace_fuel_no_dotdot by lia. cbn [orb].
  rewrite has_dotdot_cons_nodot by reflexivity.
  change ("/" ++ ?x) with (String "/" x).
  rewrite has_dotdot_app_cut by reflexivity.
  rewrite has_dotdot_nodot by exact Hc. cbn [orb].
  rewrite has_dotdot_cons_nodot by reflexivity.
  apply has_dotdot_single_dot; [|exact He].
  apply plain_nodot, uuid_str_plain.
Qed.

Lemma lstrip_all cs s : str_all (fun c => existsb (Ascii.eqb c) cs) s = true -> lstrip cs s = "".
Proof.
  induction s as [|c s IH]; cbn; [reflexivity|].
  rewrite andb_true_iff. intros [Hc Hs]. rewrite Hc. auto.
Qed.

(** A prefix made only of slashes, the empty one included, is replaced by
    ["anonymous"]. *)
Theorem build_storage_key_slashes prefix category uuid4 extension :
  str_all (fun c => Ascii.eqb c "/") prefix = true ->
  build_storage_key prefix category uuid4 extension =
  "anonymous/" ++ category ++ "/" ++ uuid_str uuid4 ++ "." ++ extension.
Proof.
  intros Hp. unfold build_storage_key, py_strip. cbv zeta.
  rewrite (lstrip_all _ prefix).
  - reflexivity.
  - revert Hp. apply str_all_impl. intros c Hc. cbn. rewrite Hc. reflexivity.
Qed.



Lemma hex_nat_cases (P : Z -> Prop) n :
  (0 <= n < 16)%Z -> (forall k, (k < 16)%nat -> P (Z.of_nat k)) -> P n.
Proof. intros Hn H. rewrite <- (Z2Nat.id n) by lia. apply H. lia. Qed.

Lemma hex_char_uuid n : (0 <= n < 16)%Z -> uuid_char (hex_char n) = true.
Proof.
  intros Hn. apply (hex_nat_cases (fun n => uuid_char (hex_char n) = true)); [exact Hn|].
  intros k Hk. do 16 (destruct k as [|k]; [reflexivity|]). lia.
Qed.

Lemma hex_val_char n : (0 <= n < 16)%Z -> hex_val (hex_char n) = Some n.
Proof.
  intros Hn. apply (hex_nat_cases (fun n => hex_val (hex_char n) = Some n)); [exact Hn|].
  intros k Hk. do 16 (destruct k as [|k]; [reflexivity|]). lia.
Qed.

Lemma hex_digits_all (p : ascii -> bool) k z :
  (forall n, (0 <= n < 16)%Z -> p (hex_char n) = true) -> str_all p (hex_digits k z) = true.
Proof.
  intros Hp. revert z. induction k as [|k IH]; intros z; cbn [hex_digits]; [reflexivity|].
  rewrite str_all_app, IH. cbn [str_all]. rewrite Hp by (apply Z.mod_pos_bound; lia).
  reflexivity.
Qed.

Lemma hex_digits_uuid k z : str_all uuid_char (hex_digits k z) = true.
Proof. apply hex_digits_all, hex_char_uuid. Qed.

Lemma hex_digits_nodash k z : str_all (fun c => negb (Ascii.eqb "-" c)) (hex_digits k z) = true.
Proof.
  apply hex_digits_all. intros n Hn.
  apply (hex_nat_cases (fun n => negb (Ascii.eqb "-" (hex_char n)) = true)); [exact Hn|].
  intros k' Hk. do 16 (destruct k' as [|k']; [reflexivity|]). lia.
Qed.

Lemma uuid_str_chars z : str_all uuid_char (uuid_str z) = true.
Proof.
  unfold uuid_str. rewrite !str_all_app.
  rewrite !str_all_substring by apply hex_digits_uuid. reflexivity.
Qed.

Lemma hex_digits_length k z : String.length (hex_digits k z) = k.
Proof.
  revert z. induction k as [|k IH]; intros z; cbn [hex_digits]; [reflexivity|].
  rewrite str_length_app, IH. cbn. lia.
Qed.

Lemma hex_value_acc_app acc a b :
  hex_value_acc acc (a ++ b) =
  match hex_value_acc acc a with Some v => hex_value_acc v b | None => None end.
Proof.
  revert acc. induction a as [|c a IH]; intros acc; [reflexivity|].
  cbn. destruct (hex_val c); [apply IH|reflexivity].
Qed.

Lemma hex_value_acc_digits k acc z :
  hex_value_acc acc (hex_digits k z) = Some (acc * 16 ^ Z.of_nat k + z mod 16 ^ Z.of_nat k)%Z.
Proof.
  revert acc z. induction k as [|k IH]; intros acc z.
  - cbn. f_equal. rewrite Z.mod_1_r. lia.
  - cbn [hex_digits]. rewrite hex_value_acc_app, IH. cbn.
    rewrite hex_val_char by (apply Z.mod_pos_bound; lia). f_equal.
    rewrite Nat2Z.inj_succ, Z.pow_succ_r by lia.
    rewrite Z.rem_mul_r by (try apply Z.pow_pos_nonneg; lia).
    ring.
Qed.

(** If the first character of [old] does not occur in [s], [replace]
    leaves [s] as it is. *)
Lemma replace_fuel_absent f o old' new s :
  str_all (fun c => negb (Ascii.eqb o c)) s = true -> replace_fuel f (String o old') new s = s.
Proof.
  revert s. induction f as [|f IH]; intros [|c s]; cbn; try reflexivity.
  rewrite andb_true_iff, negb_true_iff. intros [Hc Hs]. rewrite Hc. f_equal. auto.
Qed.

Lemma replace_fuel_dash f s :
  (String.length s <= f)%nat -> replace_fuel f "-" "" s = remove_dashes s.
Proof.
  revert s. induction f as [|f IH]; intros [|c s] Hf; cbn in Hf; try reflexivity; try lia.
  cbn [replace_fuel strip_prefix remove_dashes].
  destruct (Ascii.eqb "-" c); cbn [String.append]; [|f_equal]; apply IH; lia.
Qed.

Lemma remove_dashes_app a b : remove_dashes (a ++ b) = remove_dashes a ++ remove_dashes b.
Proof.
  induction a as [|c a IH]; [reflexivity|]. cbn [String.append remove_dashes].
  destruct (Ascii.eqb "-" c); [exact IH|]. rewrite IH. reflexivity.
Qed.

Lemma remove_dashes_id s : str_all (fun c => negb (Ascii.eqb "-" c)) s = true -> remove_dashes s = s.
Proof.
  induction s as [|c s IH]; cbn [str_all remove_dashes]; [reflexivity|].
  rewrite andb_true_iff, negb_true_iff. intros [Hc Hs]. rewrite Hc. f_equal. auto.
Qed.

Lemma substring_nil n m : substring n m "" = "".
Proof. destruct n, m; reflexivity. Qed.

Lemma substring_app_split s n m k :
  substring n m s ++ substring (n + m) k s = substring n (m + k) s.
Proof.
  revert n m. induction s as [|c s IH]; intros n m.
  - rewrite !substring_nil. reflexivity.
  - destruct n as [|n].
    + destruct m as [|m]; [reflexivity|].
      cbn [substring Nat.add String.append]. f_equal. apply (IH 0).
    + cbn [substring Nat.add]. apply IH.
Qed.

Lemma substring_app_split' s n m p k :
  p = (n + m)%nat -> substring n m s ++ substring p k s = substring n (m + k) s.
Proof. intros ->. apply substring_app_split. Qed.

Lemma substring_full s : substring 0 (String.length s) s = s.
Proof. induction s as [|c s IH]; cbn; congruence. Qed.

Lemma py_strip_id cs s :
  str_all (fun c => negb (existsb (Ascii.eqb c) cs)) s = true -> py_strip cs s = s.
Proof.
  assert (Hl : forall s, str_all (fun c => negb (existsb (Ascii.eqb c) cs)) s = true ->
                         lstrip cs s = s).
  { intros [|c s'] H; [reflexivity|]. cbn in H |- *.
    apply andb_true_iff in H as [Hc _]. apply negb_true_iff in Hc. rewrite Hc. reflexivity. }
  intros H. unfold py_strip. rewrite (Hl s H), Hl.
  - apply str_rev_involutive.
  - rewrite str_all_rev. exact H.
Qed.

Lemma uuid_char_not (d : ascii) (Hd : uuid_char d = false) s :
  str_all uuid_char s = true -> str_all (fun c => negb (Ascii.eqb d c)) s = true.
Proof.
  apply str_all_impl. intros c Hc. apply negb_true_iff. apply Ascii.eqb_neq.
  intros <-. congruence.
Qed.

(** [uuid.UUID] parses back the canonical text of every 128-bit value. *)
Theorem uuid_UUID_uuid_str z : (0 <= z < 2 ^ 128)%Z -> uuid_UUID (uuid_str z) = Some z.
Proof.
  intros Hz. unfold uuid_UUID, py_replace.
  rewrite (replace_fuel_absent _ "u" "rn:" "" (uuid_str z))
    by (apply uuid_char_not; [reflexivity|apply uuid_str_chars]).
  rewrite (replace_fuel_absent _ "u" "uid:" "" (uuid_str z))
    by (apply uuid_char_not; [reflexivity|apply uuid_str_chars]).
  rewrite py_strip_id.
  2:{ generalize (uuid_str_chars z). apply str_all_impl.
      intros c Hc.
      pose proof (all_ascii (fun c => implb (uuid_char c)
                                        (negb (existsb (Ascii.eqb c) ["{"%char; "}"%char])))
                    ltac:(vm_compute; reflexivity) c) as H.
      cbv beta in H. rewrite Hc in H. exact H. }
  rewrite replace_fuel_dash by lia.
  assert (Hhx : remove_dashes (uuid_str z) = hex_digits 32 z).
  { assert (Hnd : str_all (fun c => negb (Ascii.eqb "-" c)) (hex_digits 32 z) = true).
    { apply hex_digits_nodash. }
    unfold uuid_str. rewrite !remove_dashes_app.
    rewrite !(remove_dashes_id (substring _ _ (hex_digits 32 z))) by (apply str_all_substring; exact Hnd).
    cbn [remove_dashes Ascii.eqb Bool.eqb String.append].
    rewrite (substring_app_split' _ 16 4 20 12), (substring_app_split' _ 12 4 16 16),
      (substring_app_split' _ 8 4 12 20), (substring_app_split' _ 0 8 8 24) by reflexivity.
    change (8 + 24)%nat with 32%nat. rewrite <- (hex_digits_length 32 z) at 1. apply substring_full. }
  rewrite Hhx, hex_digits_length. cbn [Nat.eqb].
  rewrite hex_value_acc_digits. f_equal. rewrite Z.mod_small; [lia|].
  change (16 ^ Z.of_nat 32)%Z with (2 ^ 128)%Z. exact Hz.
Qed.

(** A user id in canonical form (lower-case hexadecimal, 8-4-4-4-12) is kept
    verbatim in the storage prefix. *)
Theorem resolve_canonical_id ctx z :
  (0 <= z < 2 ^ 128)%Z -> uc_id ctx = uuid_str z ->
  resolve_user_storage_prefix uuid_UUID (Some ctx) = inr ("users/" ++ uc_id ctx).
Proof.
  intros Hz Hid. unfold resolve_user_storage_prefix. rewrite Hid, uuid_UUID_uuid_str by exact Hz.
  reflexivity.
Qed.

(** ** [replicate_video_from_prompt] *)

Lemma poll_loop_count py_repr model rs g o n :
  poll_loop py_repr model rs g = (o, n) ->
  (n <= g + length rs)%nat /\
  (o = StillPolling <-> forallb nonterminal_ok rs = true /\ n = (g + length rs)%nat).
Proof.
  revert g. induction rs as [|r rs IH]; intros g; cbn [poll_loop].
  - intros E. injection E as <- <-. cbn. split; [lia|]. split; intros; [split; [reflexivity|lia]|reflexivity].
  - unfold nonterminal_ok at 1. cbn [forallb length].
    destruct (resp_ok r); cbn [negb andb].
    2:{ intros E. injection E as <- <-. split; [lia|]. split; [discriminate|intros [Hf _]; discriminate]. }
    destruct (is_terminal _) eqn:Ht; cbn [negb andb].
    + intros E. assert (Hn : n = S g /\ o <> StillPolling).
      { destruct (match py_get _ "status" with VStr s => _ | _ => false end); cbn [negb] in E;
          [destruct (py_get (resp_data r) "output") as [| | | | s | [|x xs] |]|];
          injection E as <- <-; split; (reflexivity || discriminate). }
      destruct Hn as [-> Hno]. split; [lia|]. split; [intros; contradiction|intros [Hf _]; discriminate].
    + intros E. destruct (IH _ E) as [Hle Hst]. split; [lia|].
      rewrite Hst. split; intros [H1 H2]; split; (assumption || lia).
Qed.



(** Whatever the answers, at most one creation request and one status
    request per answer are sent; the loop is still polling only when every
    status answer passed [raise_for_status] with a non-terminal status, and
    then every answer was consumed. *)
Theorem replicate_request_count py_repr token model image_url prompt seconds
    resolution audio_url create pred pred_objs polls h o n h' :
  replicate_video_from_prompt py_repr token model image_url prompt seconds resolution
    audio_url create pred pred_objs polls h = (o, n, h') ->
  (n <= 1 + length polls)%nat /\
  (o = StillPolling -> forallb nonterminal_ok polls = true /\ n = (1 + length polls)%nat).
Proof.
  unfold replicate_video_from_prompt.
  destruct (String.eqb token "").
  { intros E. injection E as <- <- <-. split; [lia|discriminate]. }
  destruct (build_model_payload _ _ _ _ _ _ h) as [[e|p] h1].
  { intros E. injection E as <- <- <-. split; [lia|discriminate]. }
  destruct create as [st txt|].
  2:{ intros E. injection E as <- <- <-. split; [lia|discriminate]. }
  destruct (400 <=? st)%Z.
  { intros E. injection E as <- <- <-. split; [lia|discriminate]. }
  destruct (negb _).
  { intros E. injection E as <- <- <-. split; [lia|discriminate]. }
  destruct (poll_loop py_repr model polls 1) as [o' n'] eqn:Hp.
  intros E. injection E as <- <- <-.
  destruct (poll_loop_count _ _ _ _ _ _ Hp) as [Hle Hst]. split; [lia|].
  intros Ho. apply Hst in Ho. exact Ho.
Qed.

(** ** [head_info] *)


Lemma digit_value_hex_char n : (0 <= n < 10)%Z -> digit_value (hex_char n) = Some n.
Proof.
  intros Hn. rewrite <- (Z2Nat.id n) by lia.
  assert (Hk : (Z.to_nat n < 10)%nat) by lia. revert Hk.
  generalize (Z.to_nat n) as k. intros k Hk.
  do 10 (destruct k as [|k]; [reflexivity|]). lia.
Qed.

Lemma dec_digits_S f n acc :
  dec_digits (S f) n acc =
  if Z.ltb n 10 then String (hex_char (n mod 10)) acc
  else dec_digits f (n / 10) (String (hex_char (n mod 10)) acc).
Proof. reflexivity. Qed.

Lemma dec_digits_parse f n acc x b :
  (0 <= n < 10 ^ Z.of_nat (S f))%Z ->
  exists k : nat, parse_digits (dec_digits (S f) n acc) x b
                  = parse_digits acc (x * 10 ^ Z.of_nat k + n)%Z true.
Proof.
  revert n acc x b. induction f as [|f IH]; intros n acc x b Hn.
  - rewrite dec_digits_S. assert (Hl : (n < 10)%Z) by (cbn in Hn; lia).
    apply Z.ltb_lt in Hl. rewrite Hl. exists 1%nat. cbn [parse_digits].
    rewrite Z.mod_small by lia. rewrite digit_value_hex_char by lia. f_equal; cbn; lia.
  - rewrite dec_digits_S. destruct (Z.ltb n 10) eqn:Hl.
    + apply Z.ltb_lt in Hl. exists 1%nat. cbn [parse_digits].
      rewrite Z.mod_small by lia. rewrite digit_value_hex_char by lia. f_equal; cbn; lia.
    + apply Z.ltb_ge in Hl.
      destruct (IH (n / 10)%Z (String (hex_char (n mod 10)) acc) x b) as [k Hk].
      { split; [apply Z.div_pos; lia|]. apply Z.div_lt_upper_bound; [lia|].
        rewrite Nat2Z.inj_succ, Z.pow_succ_r in Hn by lia. lia. }
      exists (S k). rewrite Hk. cbn [parse_digits].
      rewrite digit_value_hex_char by (apply Z.mod_pos_bound; lia).
      f_equal. rewrite Nat2Z.inj_succ, Z.pow_succ_r by lia.
      pose proof (Z.div_mod n 10 ltac:(lia)). nia.
Qed.


Lemma dec_digits_all f n acc :
  (0 <= n)%Z -> str_all is_digit acc = true -> str_all is_digit (dec_digits f n acc) = true.
Proof.
  revert n acc. induction f as [|f IH]; intros n acc Hn Hacc; [exact Hacc|].
  rewrite dec_digits_S.
  assert (Hc : str_all is_digit (String (hex_char (n mod 10)) acc) = true).
  { cbn [str_all]. unfold is_digit. rewrite digit_value_hex_char by (apply Z.mod_pos_bound; lia).
    exact Hacc. }
  destruct (Z.ltb n 10); [exact Hc|]. apply IH; [apply Z.div_pos; lia|exact Hc].
Qed.

Lemma dec_digits_cons f n acc : exists c r, dec_digits (S f) n acc = String c r.
Proof.
  revert n acc. induction f as [|f IH]; intros n acc; rewrite dec_digits_S.
  - destruct (Z.ltb n 10); [eauto|]. cbn. eauto.
  - destruct (Z.ltb n 10); [eauto|]. apply IH.
Qed.

Lemma dec_fuel_enough z : (0 <= z)%Z -> (z < 10 ^ Z.of_nat (S (Z.to_nat (Z.log2 z))))%Z.
Proof.
  intros Hz. rewrite Nat2Z.inj_succ, Z2Nat.id by apply Z.log2_nonneg.
  apply Z.lt_le_trans with (2 ^ Z.succ (Z.log2 z))%Z.
  - destruct (Z.eq_dec z 0%Z) as [->|Hnz]; [reflexivity|]. apply Z.log2_spec. lia.
  - apply Z.pow_le_mono_l. split; [lia|lia].
Qed.

Lemma digit_not_space c : is_digit c = true -> negb (existsb (Ascii.eqb c) py_whitespace) = true.
Proof.
  intros Hc.
  pose proof (all_ascii (fun c => implb (is_digit c) (negb (existsb (Ascii.eqb c) py_whitespace)))
                ltac:(vm_compute; reflexivity) c) as H.
  cbv beta in H. rewrite Hc in H. exact H.
Qed.

Lemma digit_not_sign c : is_digit c = true -> Ascii.eqb c "-" = false /\ Ascii.eqb c "+" = false.
Proof.
  intros Hc. split; apply Ascii.eqb_neq; intros ->; discriminate.
Qed.

(** [int()] reads back the decimal rendering of every integer. *)
Theorem py_int_dec_of_Z z : py_int (dec_of_Z z) = Some z.
Proof.
  unfold py_int, dec_of_Z.
  destruct (Z.ltb z 0) eqn:Hneg.
  - apply Z.ltb_lt in Hneg.
    set (s := dec_digits _ (- z) "").
    assert (Hs : str_all is_digit s = true) by (apply dec_digits_all; [lia|reflexivity]).
    rewrite py_strip_id.
    + change ("-" ++ s) with (String "-" s). cbn [Ascii.eqb Bool.eqb].
      change (Ascii.eqb "-" "-") with true. cbv iota.
      destruct (dec_digits_parse (Z.to_nat (Z.log2 (- z))) (- z) "" 0 false) as [k Hk].
      { split; [lia|apply dec_fuel_enough; lia]. }
      unfold s. rewrite Hk. cbn. f_equal. lia.
    + change ("-" ++ s) with (String "-" s). cbn [str_all]. rewrite andb_true_iff. split.
      * reflexivity.
      * revert Hs. apply str_all_impl. apply digit_not_space.
  - apply Z.ltb_ge in Hneg.
    set (s := dec_digits _ z "").
    assert (Hs : str_all is_digit s = true) by (apply dec_digits_all; [lia|reflexivity]).
    rewrite py_strip_id by (revert Hs; apply str_all_impl; apply digit_not_space).
    destruct (dec_digits_cons (Z.to_nat (Z.log2 z)) z "") as [c [r Hcr]].
    fold s in Hcr. rewrite Hcr.
    assert (Hc : is_digit c = true) by (rewrite Hcr in Hs; cbn in Hs; apply andb_true_iff in Hs; apply Hs).
    destruct (digit_not_sign c Hc) as [-> ->]. rewrite <- Hcr. unfold s.
    destruct (dec_digits_parse (Z.to_nat (Z.log2 z)) z "" 0 false) as [k Hk].
    { split; [lia|apply dec_fuel_enough; lia]. }
    rewrite Hk. cbn. reflexivity.
Qed.

Lemma parse_digits_chars s acc b z :
  parse_digits s acc b = Some z -> str_all (fun c => is_digit c || Ascii.eqb c "_") s = true.
Proof.
  revert acc b. induction s as [|c s IH]; intros acc b; [reflexivity|].
  cbn [parse_digits str_all]. unfold is_digit.
  destruct (digit_value c) as [d|].
  - intros H. cbn [orb andb]. eapply IH. exact H.
  - destruct (Ascii.eqb c "_" && b) eqn:Hu; [|discriminate].
    apply andb_true_iff in Hu as [Hu _]. rewrite Hu. intros H. eapply IH. exact H.
Qed.

Lemma lstrip_back p cs s :
  (forall c, existsb (Ascii.eqb c) cs = true -> p c = true) ->
  str_all p (lstrip cs s) = true -> str_all p s = true.
Proof.
  intros Hcs. induction s as [|c s IH]; [reflexivity|]. cbn [lstrip].
  destruct (existsb (Ascii.eqb c) cs) eqn:Hc; [|exact id].
  intros H. cbn [str_all]. rewrite (Hcs c Hc). apply IH, H.
Qed.

Lemma py_strip_back p cs s :
  (forall c, existsb (Ascii.eqb c) cs = true -> p c = true) ->
  str_all p (py_strip cs s) = true -> str_all p s = true.
Proof.
  intros Hcs. unfold py_strip. rewrite str_all_rev. intros H.
  apply (lstrip_back p cs) in H; [|exact Hcs]. rewrite str_all_rev in H.
  apply (lstrip_back p cs) in H; [exact H|exact Hcs].
Qed.

Lemma py_int_no_comma s z : py_int s = Some z -> str_all no_comma s = true.
Proof.
  unfold py_int. intros H. apply (py_strip_back no_comma py_whitespace).
  { intros c Hc.
    pose proof (all_ascii (fun c => implb (existsb (Ascii.eqb c) py_whitespace) (no_comma c))
                  ltac:(vm_compute; reflexivity) c) as Hall.
    cbv beta in Hall. rewrite Hc in Hall. exact Hall. }
  assert (Hq : forall c, is_digit c || Ascii.eqb c "_" = true -> no_comma c = true).
  { intros c Hc.
    pose proof (all_ascii (fun c => implb (is_digit c || Ascii.eqb c "_") (no_comma c))
                  ltac:(vm_compute; reflexivity) c) as Hall.
    cbv beta in Hall. rewrite Hc in Hall. exact Hall. }
  destruct (py_strip py_whitespace s) as [|c r]; [discriminate|].
  destruct (Ascii.eqb c "-") eqn:Hm.
  - apply Ascii.eqb_eq in Hm as ->. cbn [str_all]. 
    destruct (parse_digits r 0 false) eqn:Hp; [|discriminate].
    apply parse_digits_chars in Hp. rewrite (str_all_impl _ _ _ Hq Hp). reflexivity.
  - destruct (Ascii.eqb c "+") eqn:Hp'.
    + apply Ascii.eqb_eq in Hp' as ->. cbn [str_all]. apply parse_digits_chars in H.
      rewrite (str_all_impl _ _ _ Hq H). reflexivity.
    + apply parse_digits_chars in H. exact (str_all_impl _ _ _ Hq H).
Qed.


Lemma head_info_from hd get r :
  head_info_source hd get r ->
  fst (head_info (Some hd) get) =
  match py_int (headers_get (hr_headers r) "content-length" "0") with
  | None => HeadValueError
  | Some size => HeadOk (hr_status r) (headers_get (hr_headers r) "content-type" "") size
  end.
Proof.
  unfold head_info. intros [[Hlt ->] | [Hge ->]].
  - apply Z.leb_gt in Hlt. rewrite Hlt. destruct (py_int _); reflexivity.
  - apply Z.leb_le in Hge. rewrite Hge. destruct (py_int _); reflexivity.
Qed.

(** Without a [content-length] header the size is 0; with one header holding
    the decimal rendering of [z] the size is [z]; with two or more of them
    [head_info] raises [ValueError]. *)
Theorem head_info_size hd get r :
  head_info_source hd get r ->
  (content_length_headers r = [] ->
   fst (head_info (Some hd) get) = HeadOk (hr_status r) (headers_get (hr_headers r) "content-type" "") 0) /\
  (forall k z, content_length_headers r = [(k, dec_of_Z z)] ->
   fst (head_info (Some hd) get) = HeadOk (hr_status r) (headers_get (hr_headers r) "content-type" "") z) /\
  ((2 <= length (content_length_headers r))%nat -> fst (head_info (Some hd) get) = HeadValueError).
Proof.
  intros Hsrc. rewrite (head_info_from hd get r Hsrc).
  assert (E : headers_get (hr_headers r) "content-length" "0" =
              match content_length_headers r with
              | [] => "0"
              | found => String.concat ", " (map snd found)
              end) by reflexivity.
  rewrite E. split; [|split].
  - intros ->. reflexivity.
  - intros k z ->. change (String.concat ", " (map snd [(k, dec_of_Z z)])) with (dec_of_Z z).
    rewrite py_int_dec_of_Z. reflexivity.
  - destruct (content_length_headers r) as [|[k1 v1] [|[k2 v2] rest]]; cbn [length]; try lia.
    intros _. destruct (py_int _) eqn:Hp; [|reflexivity]. exfalso.
    apply py_int_no_comma in Hp. cbn [map String.concat] in Hp.
    rewrite str_all_app in Hp. apply andb_true_iff in Hp as [_ Hp]. discriminate.
Qed.

(** ** Request handlers *)

(** [supabase_delete] never raises, whatever the configuration and the
    answer of the storage service; its only effect is one delete call. *)
Theorem supabase_delete_total cfg w k (t : trace) :
  supabase_delete cfg w k t = (inr tt, app t [EvDelete k]).
Proof.
  unfold supabase_delete, emit, bind, ret, try_except, raise.
  destruct (_ || _); [reflexivity|]. destruct (w_delete w); reflexivity.
Qed.

Lemma build_storage_key_nonempty p c u e : String.eqb (build_storage_key p c u e) "" = false.
Proof. unfold build_storage_key. destruct (py_replace _ _ _); reflexivity. Qed.

Lemma tts_cleanup_run {A} cfg w ak fk e (t : trace) :
  @tts_cleanup A cfg w ak fk e t =
  (inl e, app t (app (match fk with
                      | Some k => if String.eqb k "" then [] else [EvDelete k]
                      | None => [] end) [EvDelete ak])).
Proof.
  unfold tts_cleanup, bind, raise, ret.
  destruct fk as [k|]; [destruct (String.eqb k "")|];
    rewrite ?supabase_delete_total; cbn; rewrite <- ?app_assoc; reflexivity.
Qed.


Ltac clean := rewrite ?tts_cleanup_run, ?build_storage_key_nonempty; red_run.


Lemma storage_keys_differ p u u' : build_storage_key p "videos" u "mp4" <> build_storage_key p "audio" u' "mp3".
Proof.
  unfold build_storage_key. cbv zeta. intros E.
  apply (inj (String.append _)) in E. discriminate.
Qed.

Ltac tts_prefix_audio Hpre :=
  unfold create_job_with_prompt_and_tts; rewrite Hpre;
  unfold elevenlabs_tts_bytes, of_sum, generate_video_from_prompt, fetch_binary,
    supabase_upload, insert_pet_video;
  red_run.

Ltac close_gen :=
  intros Hh;
  repeat match goal with
         | H : _ \/ _ |- _ => destruct H as [H|H]
         | H : False |- _ => destruct H
         end; try discriminate.

(** In the speech-to-video branch the final key is assigned before the
    download; a failed download deletes that key, which was never uploaded,
    then the audio, and re-raises. *)
Theorem tts_job_s2v_fetch_failure uuid_parse cfg tw req prefix v e :
  resolve_user_storage_prefix uuid_parse (treq_user_context req) = inr prefix ->
  let audio_key := build_storage_key prefix "audio" (tj_audio_uuid4 tw) "mp3" in
  let final_key := build_storage_key prefix "videos" (w_uuid4 (tj_world tw)) "mp4" in
  let run := create_job_with_prompt_and_tts uuid_parse cfg tw req [] in
  In (EvFetch v (Some e)) run.2 ->
  run.1 = inl e /\ deleted_keys run.2 = [final_key; audio_key] /\
  forall o, ~ In (EvUpload final_key o) run.2.
Proof.
  intros Hpre audio_key final_key run. subst run audio_key final_key.
  pose proof (storage_keys_differ prefix (w_uuid4 (tj_world tw)) (tj_audio_uuid4 tw)) as Hd.
  tts_prefix_audio Hpre.
  destruct (String.eqb (ELEVEN_API_KEY cfg) ""); red_run; [close_gen|].
  destruct (TTS_MAX_CHARS cfg <? _)%Z; red_run; [close_gen|].
  destruct (w_tts (tj_world tw)) as [st a|]; red_run; [|close_gen].
  destruct (400 <=? st)%Z; red_run; [close_gen|].
  destruct (9500000 <? _)%Z; red_run; [close_gen|].
  destruct (supabase_env_missing cfg) eqn:Henv; red_run; [close_gen|].
  destruct (w_upload (tj_world tw) _) as [st1 t1|]; red_run; [|close_gen].
  destruct (400 <=? st1)%Z; red_run; [close_gen|].
  destruct (String.eqb (model_or_default (treq_model req)) _); red_run.
  - destruct (w_generate (tj_world tw) _) as [e1|v']; red_run; [clean; close_gen|].
    destruct (w_fetch (tj_world tw) v') as [e2|b]; red_run.
    + clean. close_gen. injection Hh as -> ->.
      split; [reflexivity|]. split; [reflexivity|].
      intros o Ho. cbv [In] in Ho.
      repeat match goal with
             | H : _ \/ _ |- _ => destruct H as [H|H]
             | H : False |- _ => destruct H
             end; try discriminate.
      injection Ho as Ho _. exact (Hd (eq_sym Ho)).
    + destruct (w_upload (tj_world tw) _) as [st2 t2|]; red_run; [|clean; close_gen].
      destruct (400 <=? st2)%Z; red_run; [clean; close_gen|].
      destruct (w_insert (tj_world tw)) as [st3 t3|]; red_run; [|clean; close_gen].
      destruct (400 <=? st3)%Z; red_run; [clean; close_gen|close_gen].
  - destruct (w_generate (tj_world tw) _) as [e1|v']; red_run; [clean; close_gen|].
    destruct (tj_mux tw v' _) as [e2|b]; red_run; [clean; close_gen|].
    destruct (w_upload (tj_world tw) _) as [st2 t2|]; red_run; [|clean; close_gen].
    destruct (400 <=? st2)%Z; red_run; [clean; close_gen|].
    destruct (w_insert (tj_world tw)) as [st3 t3|]; red_run; [|clean; close_gen].
    destruct (400 <=? st3)%Z; red_run; [clean; close_gen|close_gen].
Qed.

(** A successful run deletes nothing and stored exactly two objects: the
    audio, then the final video. *)
Theorem tts_job_success uuid_parse cfg tw req prefix r :
  resolve_user_storage_prefix uuid_parse (treq_user_context req) = inr prefix ->
  let run := create_job_with_prompt_and_tts uuid_parse cfg tw req [] in
  run.1 = inr r ->
  deleted_keys run.2 = [] /\
  uploads_ok run.2 = [build_storage_key prefix "audio" (tj_audio_uuid4 tw) "mp3";
                      build_storage_key prefix "videos" (w_uuid4 (tj_world tw)) "mp4"].
Proof.
  intros Hpre run. subst run.
  tts_prefix_audio Hpre.
  destruct (String.eqb (ELEVEN_API_KEY cfg) ""); red_run; [discriminate|].
  destruct (TTS_MAX_CHARS cfg <? _)%Z; red_run; [discriminate|].
  destruct (w_tts (tj_world tw)) as [st a|]; red_run; [|discriminate].
  destruct (400 <=? st)%Z; red_run; [discriminate|].
  destruct (9500000 <? _)%Z; red_run; [discriminate|].
  destruct (supabase_env_missing cfg) eqn:Henv; red_run; [discriminate|].
  destruct (w_upload (tj_world tw) _) as [st1 t1|]; red_run; [|discriminate].
  destruct (400 <=? st1)%Z; red_run; [discriminate|].
  destruct (String.eqb (model_or_default (treq_model req)) _); red_run.
  - destruct (w_generate (tj_world tw) _) as [e1|v']; red_run; [clean; discriminate|].
    destruct (w_fetch (tj_world tw) v') as [e2|b]; red_run; [clean; discriminate|].
    destruct (w_upload (tj_world tw) _) as [st2 t2|]; red_run; [|clean; discriminate].
    destruct (400 <=? st2)%Z; red_run; [clean; discriminate|].
    destruct (w_insert (tj_world tw)) as [st3 t3|]; red_run; [|clean; discriminate].
    destruct (400 <=? st3)%Z; red_run; [clean; discriminate|].
    intros _. split; reflexivity.
  - destruct (w_generate (tj_world tw) _) as [e1|v']; red_run; [clean; discriminate|].
    destruct (tj_mux tw v' _) as [e2|b]; red_run; [clean; discriminate|].
    destruct (w_upload (tj_world tw) _) as [st2 t2|]; red_run; [|clean; discriminate].
    destruct (400 <=? st2)%Z; red_run; [clean; discriminate|].
    destruct (w_insert (tj_world tw)) as [st3 t3|]; red_run; [|clean; discriminate].
    destruct (400 <=? st3)%Z; red_run; [clean; discriminate|].
    intros _. split; reflexivity.
Qed.

(** Before the audio is stored nothing is cleaned up: an invalid user id
    or a missing speech key fails with no call made, and a failed audio
    upload is re-raised after only the speech request and that upload. *)
Theorem tts_job_before_audio uuid_parse cfg tw req :
  (forall ctx, treq_user_context req = Some ctx -> uuid_parse (uc_id ctx) = None ->
   create_job_with_prompt_and_tts uuid_parse cfg tw req [] =
   (inl (HTTPException 400 "user_context.id must be a valid UUID"), [])) /\
  (forall prefix, resolve_user_storage_prefix uuid_parse (treq_user_context req) = inr prefix ->
   ELEVEN_API_KEY cfg = "" ->
   create_job_with_prompt_and_tts uuid_parse cfg tw req [] =
   (inl (HTTPException 500 "ELEVEN_API_KEY not set"), [])) /\
  (forall prefix e, resolve_user_storage_prefix uuid_parse (treq_user_context req) = inr prefix ->
   let audio_key := build_storage_key prefix "audio" (tj_audio_uuid4 tw) "mp3" in
   In (EvUpload audio_key (Some e)) (create_job_with_prompt_and_tts uuid_parse cfg tw req []).2 ->
   create_job_with_prompt_and_tts uuid_parse cfg tw req [] =
   (inl e, [EvTTSPost (treq_voice_id req); EvUpload audio_key (Some e)])).
Proof.
  split; [|split].
  - intros ctx Hc Hu. unfold create_job_with_prompt_and_tts, resolve_user_storage_prefix.
    rewrite Hc, Hu. reflexivity.
  - intros prefix Hpre Hk. tts_prefix_audio Hpre. rewrite Hk. reflexivity.
  - intros prefix e Hpre audio_key. subst audio_key.
    pose proof (storage_keys_differ prefix (w_uuid4 (tj_world tw)) (tj_audio_uuid4 tw)) as Hd.
    tts_prefix_audio Hpre.
    destruct (String.eqb (ELEVEN_API_KEY cfg) ""); red_run; [close_gen|].
    destruct (TTS_MAX_CHARS cfg <? _)%Z; red_run; [close_gen|].
    destruct (w_tts (tj_world tw)) as [st a|]; red_run; [|close_gen].
    destruct (400 <=? st)%Z; red_run; [close_gen|].
    destruct (9500000 <? _)%Z; red_run; [close_gen|].
    destruct (supabase_env_missing cfg) eqn:Henv; red_run.
    { close_gen. injection Hh as Hh. subst e. reflexivity. }
    destruct (w_upload (tj_world tw) _) as [st1 t1|]; red_run.
    2:{ close_gen. injection Hh as Hh. subst e. reflexivity. }
    destruct (400 <=? st1)%Z; red_run.
    { close_gen. injection Hh as Hh. subst e. reflexivity. }
    destruct (String.eqb (model_or_default (treq_model req)) _); red_run.
    + destruct (w_generate (tj_world tw) _) as [e1|v']; red_run; [clean; close_gen|].
      destruct (w_fetch (tj_world tw) v') as [e2|b]; red_run; [clean; close_gen|].
      destruct (w_upload (tj_world tw) _) as [st2 t2|]; red_run.
      2:{ clean. close_gen. injection Hh as Hh _. exfalso. exact (Hd Hh). }
      destruct (400 <=? st2)%Z; red_run.
      { clean. close_gen. injection Hh as Hh _. exfalso. exact (Hd Hh). }
      destruct (w_insert (tj_world tw)) as [st3 t3|]; red_run; [|clean; close_gen].
      destruct (400 <=? st3)%Z; red_run; [clean; close_gen|close_gen].
    + destruct (w_generate (tj_world tw) _) as [e1|v']; red_run; [clean; close_gen|].
      destruct (tj_mux tw v' _) as [e2|b]; red_run; [clean; close_gen|].
      destruct (w_upload (tj_world tw) _) as [st2 t2|]; red_run.
      2:{ clean. close_gen. injection Hh as Hh _. exfalso. exact (Hd Hh). }
      destruct (400 <=? st2)%Z; red_run.
      { clean. close_gen. injection Hh as Hh _. exfalso. exact (Hd Hh). }
      destruct (w_insert (tj_world tw)) as [st3 t3|]; red_run; [|clean; close_gen].
      destruct (400 <=? st3)%Z; red_run; [clean; close_gen|close_gen].
Qed.


(** In [create_job_with_prompt] a successful run deletes nothing and stored
    one object, the final video; a delete happens only after the metadata
    insert raised, and that exception is the one raised to the caller. *)
Theorem prompt_only_deletes uuid_parse cfg w req prefix :
  resolve_user_storage_prefix uuid_parse (req_user_context req) = inr prefix ->
  let run := create_job_with_prompt uuid_parse cfg w req [] in
  (forall r, run.1 = inr r ->
   deleted_keys run.2 = [] /\
   uploads_ok run.2 = [build_storage_key prefix "videos" (w_uuid4 w) "mp4"]) /\
  (deleted_keys run.2 <> [] ->
   exists record e, In (EvInsert record (Some e)) run.2 /\ run.1 = inl e).
Proof.
  intros Hpre run. subst run.
  unfold create_job_with_prompt. rewrite Hpre.
  unfold of_sum, generate_video_from_prompt, fetch_binary, supabase_upload, insert_pet_video.
  red_run.
  destruct (String.eqb _ "wan-video/wan-2.2-s2v"); red_run.
  { split; [discriminate|]. intros H. exfalso. apply H. reflexivity. }
  destruct (w_generate w _) as [e1|url]; red_run.
  { split; [discriminate|]. intros H. exfalso. apply H. reflexivity. }
  destruct (w_fetch w url) as [e2|bytes]; red_run.
  { split; [discriminate|]. intros H. exfalso. apply H. reflexivity. }
  destruct (supabase_env_missing cfg) eqn:Henv; red_run.
  { split; [discriminate|]. intros H. exfalso. apply H. reflexivity. }
  destruct (w_upload w _) as [st txt|]; red_run.
  2:{ split; [discriminate|]. intros H. exfalso. apply H. reflexivity. }
  destruct (400 <=? st)%Z; red_run.
  { split; [discriminate|]. intros H. exfalso. apply H. reflexivity. }
  destruct (w_insert w) as [st' txt'|]; red_run.
  - destruct (400 <=? st')%Z; red_run.
    + rewrite supabase_delete_total. red_run. split; [discriminate|].
      intros _. eexists _, _. split; [|reflexivity]. right. right. right. left. reflexivity.
    + split; [intros r _; split; reflexivity|]. intros H. exfalso. apply H. reflexivity.
  - rewrite supabase_delete_total. red_run. split; [discriminate|].
    intros _. eexists _, _. split; [|reflexivity]. right. right. right. left. reflexivity.
Qed.

(** ** Speech synthesis and muxing *)


Lemma prefix_app (a b : string) : String.prefix a (a ++ b) = true.
Proof.
  induction a as [|c a IH]; [destruct b; reflexivity|].
  cbn [String.append String.prefix]. destruct (ascii_dec c c); [exact IH|congruence].
Qed.

Lemma under_join dir name : under dir (path_join dir name) = true.
Proof.
  unfold under, path_join. rewrite <- str_app_assoc, (prefix_app (dir ++ "/") name), orb_true_r.
  reflexivity.
Qed.

Lemma rmtree_lookup dir (m : fs) p :
  filter (fun kv : string * string => under dir kv.1 = false) m !! p
  = if under dir p then None else m !! p.
Proof.
  destruct (under dir p) eqn:Hu.
  - apply map_lookup_filter_None. right. intros x _. cbn. rewrite Hu. discriminate.
  - destruct (m !! p) as [x|] eqn:Hm.
    + apply map_lookup_filter_Some. split; [exact Hm|]. exact Hu.
    + apply map_lookup_filter_None. left. exact Hm.
Qed.

(** On success [mux_video_audio] returns the encoder's output, removes
    every path under its temporary directory and leaves every other path
    as it was. *)
Theorem mux_success_cleans mw v a out video_url audio_url (m : fs) :
  mw_video mw = Some v -> mw_audio mw = Some a -> mw_ffmpeg_output mw = Some out ->
  let run := mux_video_audio mw video_url audio_url m in
  run.1 = inr out /\
  forall p, run.2 !! p = if under (mw_tmpdir mw) p then None else m !! p.
Proof.
  intros Hv Ha Hf run. subst run.
  unfold mux_video_audio, mkdtemp, http_get, write_file, read_file, bind, ret, raise.
  rewrite Hv, Ha, Hf. cbn beta iota zeta.
  rewrite lookup_insert_eq. cbn beta iota.
  unfold rmtree. cbn beta iota zeta.
  split; [reflexivity|]. intros p. cbn [snd]. rewrite rmtree_lookup.
  destruct (under (mw_tmpdir mw) p) eqn:Hu; [reflexivity|].
  assert (Hne : forall name, path_join (mw_tmpdir mw) name <> p).
  { intros name E. rewrite <- E, under_join in Hu. discriminate. }
  assert (Hd : mw_tmpdir mw <> p).
  { intros E. unfold under in Hu. rewrite E, String.eqb_refl in Hu. discriminate. }
  rewrite !lookup_insert_ne by auto. reflexivity.
Qed.

(** A failed download raises [HTTPError] and leaves the temporary
    directory behind, with the video in it when only the audio download
    failed. *)
Theorem mux_download_failure_leaves_dir mw video_url audio_url (m : fs) :
  (mw_video mw = None \/ mw_audio mw = None) ->
  let run := mux_video_audio mw video_url audio_url m in
  run.1 = inl HTTPError /\ run.2 !! mw_tmpdir mw = Some "" /\
  (forall v, mw_video mw = Some v -> run.2 !! path_join (mw_tmpdir mw) "in.mp4" = Some v).
Proof.
  intros Hdl run. subst run.
  unfold mux_video_audio, mkdtemp, http_get, write_file, read_file, bind, ret, raise.
  assert (Hd : mw_tmpdir mw <> path_join (mw_tmpdir mw) "in.mp4").
  { unfold path_join. intros E. apply (f_equal String.length) in E.
    rewrite str_length_app in E. cbn in E. lia. }
  destruct (mw_video mw) as [v|] eqn:Hv.
  - destruct Hdl as [Hn|Hn]; [discriminate|]. rewrite Hn. cbn beta iota zeta.
    cbn [fst snd]. split; [reflexivity|]. split.
    + rewrite lookup_insert_ne by (intros E; apply Hd; symmetry; exact E). apply lookup_insert_eq.
    + intros v' E. injection E as <-. apply lookup_insert_eq.
  - cbn beta iota zeta. cbn [fst snd]. split; [reflexivity|]. split; [apply lookup_insert_eq|discriminate].
Qed.

(** ** Witnesses: the properties above at concrete inputs *)

Lemma require_auth_accepts_witness :
  require_auth (auth_example "s3cret") (Some "BEARER s3cret") = inr tt.
Proof.
  apply (proj2 (require_auth_accepts (auth_example "s3cret") "BEARER s3cret" eq_refl
                  ltac:(cbn; discriminate) eq_refl)).
  exists "BEARER". split; reflexivity.
Defined.



Lemma require_auth_malformed_witness :
  require_auth (auth_example "s3cret") (Some "Basic s3cret") =
  inl (HTTPException 401 "Authorization header must be 'Bearer <token>'").
Proof.
  assert (Hne : API_AUTH_TOKEN (auth_example "s3cret") <> "") by (cbn; discriminate).
  assert (Hlow : py_lower "Basic" <> "bearer") by (intro Hc; vm_compute in Hc; discriminate).
  change (Some "Basic s3cret")
    with (Some (match Some "s3cret" with None => "Basic" | Some t' => "Basic" ++ " " ++ t' end)).
  apply (require_auth_malformed (auth_example "s3cret") "Basic" (Some "s3cret") eq_refl Hne eq_refl).
  right. exists "s3cret". split; [reflexivity | left; exact Hlow].
Defined.

Lemma require_auth_bearer_witness :
  require_auth (auth_example "s3cret") (Some "Bearer wrong") =
  inl (HTTPException 403 "Invalid API token").
Proof.
  etransitivity.
  - exact (require_auth_bearer (auth_example "s3cret") "Bearer" "wrong" eq_refl
             ltac:(cbn; discriminate) eq_refl ltac:(discriminate)).
  - vm_compute. reflexivity.
Defined.

Lemma build_storage_key_no_dotdot_witness :
  has_dotdot "../x/.." = true /\
  has_dotdot (build_storage_key "../x/.." "videos" 7 "mp4") = false.
Proof.
  split; [vm_compute; reflexivity|].
  exact (build_storage_key_no_dotdot "../x/.." "videos" 7 "mp4" eq_refl eq_refl).
Defined.

Lemma build_storage_key_slashes_witness :
  build_storage_key "///" "videos" 7 "mp4" = "anonymous/" ++ "videos" ++ "/" ++ uuid_str 7 ++ "." ++ "mp4".
Proof.
  exact (build_storage_key_slashes "///" "videos" 7 "mp4" eq_refl).
Defined.

Lemma resolve_canonical_id_witness :
  resolve_user_storage_prefix uuid_UUID (Some zero_uuid_user) = inr ("users/" ++ uc_id zero_uuid_user).
Proof.
  apply (resolve_canonical_id zero_uuid_user 0); [lia | vm_compute; reflexivity].
Defined.



Lemma replicate_request_count_witness :
  forallb nonterminal_ok polls_pending = true /\
  exists h', replicate_video_from_prompt json_repr "tok" "wan-video/wan-2.1" "https://e.com/pet.jpg"
    "a dog" 6 "720p" None (Resp 201 "{}") [("id", VStr "p1")] ∅ polls_pending init_heap =
    (StillPolling, 3%nat, h').
Proof.
  destruct (replicate_video_from_prompt json_repr "tok" "wan-video/wan-2.1" "https://e.com/pet.jpg"
    "a dog" 6 "720p" None (Resp 201 "{}") [("id", VStr "p1")] ∅ polls_pending init_heap)
    as [[o n] h'] eqn:E.
  assert (Ho : o = StillPolling) by (vm_compute in E; congruence).
  destruct (proj2 (replicate_request_count json_repr "tok" "wan-video/wan-2.1" "https://e.com/pet.jpg"
    "a dog" 6 "720p" None (Resp 201 "{}") [("id", VStr "p1")] ∅ polls_pending init_heap o n h' E) Ho)
    as [Hall Hn].
  split; [exact Hall|]. exists h'. rewrite Ho, Hn. reflexivity.
Defined.


Lemma head_info_size_witness :
  fst (head_info (Some head_ok) None) = HeadOk 200 "video/mp4" 1048576 /\
  fst (head_info (Some head_no_length) None) = HeadOk 206 "video/mp4" 0 /\
  fst (head_info (Some head_forbidden) (Some head_two_lengths)) = HeadValueError.
Proof.
  assert (S1 : head_info_source head_ok None head_ok) by (left; split; [cbn; lia | reflexivity]).
  assert (S2 : head_info_source head_no_length None head_no_length)
    by (left; split; [cbn; lia | reflexivity]).
  assert (S3 : head_info_source head_forbidden (Some head_two_lengths) head_two_lengths)
    by (right; split; [cbn; lia | reflexivity]).
  assert (L1 : content_length_headers head_ok = [("Content-Length", dec_of_Z 1048576)])
    by (vm_compute; reflexivity).
  assert (L2 : content_length_headers head_no_length = []) by (vm_compute; reflexivity).
  assert (L3 : (2 <= List.length (content_length_headers head_two_lengths))%nat)
    by (vm_compute; lia).
  split; [|split].
  - rewrite (proj1 (proj2 (head_info_size head_ok None head_ok S1)) _ _ L1).
    vm_compute. reflexivity.
  - rewrite (proj1 (head_info_size head_no_length None head_no_length S2) L2).
    vm_compute. reflexivity.
  - exact (proj2 (proj2 (head_info_size head_forbidden (Some head_two_lengths) head_two_lengths S3)) L3).
Defined.


Lemma tts_job_s2v_fetch_failure_witness :
  let run := create_job_with_prompt_and_tts uuid_UUID (cfg_example "sk") (tts_world world_fetch_fails)
               (tts_req_example (Some "wan-video/wan-2.2-s2v") None) [] in
  In (EvFetch "https://replicate.delivery/v.mp4" (Some HTTPError)) run.2 /\
  run.1 = inl HTTPError /\
  deleted_keys run.2 = [build_storage_key "anonymous" "videos" 7 "mp4";
                        build_storage_key "anonymous" "audio" 9 "mp3"] /\
  forall o, ~ In (EvUpload (build_storage_key "anonymous" "videos" 7 "mp4") o) run.2.
Proof.
  cbv zeta.
  assert (Hf : In (EvFetch "https://replicate.delivery/v.mp4" (Some HTTPError))
    (create_job_with_prompt_and_tts uuid_UUID (cfg_example "sk") (tts_world world_fetch_fails)
       (tts_req_example (Some "wan-video/wan-2.2-s2v") None) []).2) by find_in.
  split; [exact Hf|].
  exact (tts_job_s2v_fetch_failure uuid_UUID (cfg_example "sk") (tts_world world_fetch_fails)
           (tts_req_example (Some "wan-video/wan-2.2-s2v") None) "anonymous" _ _ eq_refl Hf).
Defined.

Lemma tts_job_success_witness :
  let run := create_job_with_prompt_and_tts uuid_UUID (cfg_example "sk") (tts_world world_ok)
               (tts_req_example None None) [] in
  (exists r, run.1 = inr r) /\ deleted_keys run.2 = [] /\
  uploads_ok run.2 = [build_storage_key "anonymous" "audio" 9 "mp3";
                      build_storage_key "anonymous" "videos" 7 "mp4"].
Proof.
  cbv zeta.
  destruct (create_job_with_prompt_and_tts uuid_UUID (cfg_example "sk") (tts_world world_ok)
              (tts_req_example None None) []).1 as [e|r] eqn:E; [vm_compute in E; discriminate|].
  split; [exists r; reflexivity|].
  exact (tts_job_success uuid_UUID (cfg_example "sk") (tts_world world_ok)
           (tts_req_example None None) "anonymous" r eq_refl E).
Defined.

Lemma tts_job_before_audio_witness :
  create_job_with_prompt_and_tts uuid_UUID (cfg_example "sk") (tts_world world_ok)
    (tts_req_example None (Some traversal_user)) [] =
  (inl (HTTPException 400 "user_context.id must be a valid UUID"), []) /\
  create_job_with_prompt_and_tts uuid_UUID (cfg_example "") (tts_world world_ok)
    (tts_req_example None None) [] =
  (inl (HTTPException 500 "ELEVEN_API_KEY not set"), []) /\
  create_job_with_prompt_and_tts uuid_UUID (cfg_example "sk") (tts_world world_upload_fails)
    (tts_req_example None None) [] =
  (inl (HTTPException 503 "Supabase upload failed: unavailable"),
   [EvTTSPost "voice"; EvUpload (build_storage_key "anonymous" "audio" 9 "mp3")
                         (Some (HTTPException 503 "Supabase upload failed: unavailable"))]).
Proof.
  split; [|split].
  - exact (proj1 (tts_job_before_audio uuid_UUID (cfg_example "sk") (tts_world world_ok)
                    (tts_req_example None (Some traversal_user))) traversal_user eq_refl
             ltac:(vm_compute; reflexivity)).
  - exact (proj1 (proj2 (tts_job_before_audio uuid_UUID (cfg_example "") (tts_world world_ok)
                           (tts_req_example None None))) "anonymous" eq_refl eq_refl).
  - apply (proj2 (proj2 (tts_job_before_audio uuid_UUID (cfg_example "sk") (tts_world world_upload_fails)
                           (tts_req_example None None))) "anonymous" _ eq_refl).
    find_in.
Defined.


Lemma prompt_only_deletes_witness :
  ((exists r, (create_job_with_prompt uuid_UUID (cfg_example "sk") world_ok req_example []).1 = inr r) /\
   uploads_ok (create_job_with_prompt uuid_UUID (cfg_example "sk") world_ok req_example []).2
   = [build_storage_key "anonymous" "videos" 7 "mp4"]) /\
  exists record e,
    In (EvInsert record (Some e)) (create_job_with_prompt uuid_UUID (cfg_example "sk") world_example
                                     req_example []).2 /\
    (create_job_with_prompt uuid_UUID (cfg_example "sk") world_example req_example []).1 = inl e.
Proof.
  split.
  - destruct (create_job_with_prompt uuid_UUID (cfg_example "sk") world_ok req_example []).1
      as [e|r] eqn:E; [vm_compute in E; discriminate|].
    split; [exists r; reflexivity|].
    exact (proj2 (proj1 (prompt_only_deletes uuid_UUID (cfg_example "sk") world_ok req_example
                           "anonymous" eq_refl) r E)).
  - apply (proj2 (prompt_only_deletes uuid_UUID (cfg_example "sk") world_example req_example
                    "anonymous" eq_refl)).
    vm_compute. discriminate.
Defined.


Lemma mux_success_cleans_witness :
  let run := mux_video_audio mw_ok "https://e.com/v.mp4" "https://e.com/a.mp3"
               (<["/home/app/keep.txt" := "k"]> ∅) in
  run.1 = inr "MUXED" /\ run.2 !! "/tmp/tmpab12/in.mp4" = None /\
  run.2 !! "/home/app/keep.txt" = Some "k".
Proof.
  cbv zeta.
  destruct (mux_success_cleans mw_ok "VIDEO" "AUDIO" "MUXED" "https://e.com/v.mp4" "https://e.com/a.mp3"
              (<["/home/app/keep.txt" := "k"]> ∅) eq_refl eq_refl eq_refl) as [Hr Hp].
  split; [exact Hr|]. split.
  - rewrite Hp. vm_compute. reflexivity.
  - rewrite Hp. vm_compute. reflexivity.
Defined.

Lemma mux_download_failure_leaves_dir_witness :
  let run := mux_video_audio mw_audio_fails "https://e.com/v.mp4" "https://e.com/a.mp3" ∅ in
  run.1 = inl HTTPError /\ run.2 !! "/tmp/tmpab12" = Some "" /\
  run.2 !! path_join "/tmp/tmpab12" "in.mp4" = Some "VIDEO".
Proof.
  cbv zeta.
  destruct (mux_download_failure_leaves_dir mw_audio_fails "https://e.com/v.mp4" "https://e.com/a.mp3" ∅
              (or_intror eq_refl)) as [Hr [Hd Hv]].
  split; [exact Hr|]. split; [exact Hd|]. exact (Hv "VIDEO" eq_refl).
Defined.
